(** * RISC-V back-end glue of the HotSpot VM: C2 code stubs and CPU feature detection

    Shallow embedding of

      - [src/hotspot/os_cpu/linux_riscv/vm_version_linux_riscv.cpp]
        (module [VMVersion]): the one-time detection pass that fills the
        feature registry and renders the features string;
      - [src/hotspot/cpu/riscv/c2_CodeStubs_riscv.cpp] (module [CodeStubs]):
        the emitters of the safepoint-poll stub and of the entry-barrier stub.

    C strings are [string]s without their terminating NUL; 64-bit integers
    are [Z]; the static state of [VM_Version] and the code buffer of the
    assembler are threaded through small state monads. *)

From Stdlib Require Import ZArith List String Ascii Bool Lia.
Import ListNotations.

Local Open Scope string_scope.

(** ** The C library routines the detector calls *)

Module CString.

(** [tolower] in the C locale. *)
Definition tolower (c : ascii) : ascii :=
  let n := nat_of_ascii c in
  if ((65 <=? n) && (n <=? 90))%nat then ascii_of_nat (n + 32) else c.

(** [strchr s c]: the suffix of [s] that starts at the first [c]. *)
Fixpoint strchr (s : string) (c : ascii) : option string :=
  match s with
  | EmptyString => None
  | String a s' => if Ascii.eqb a c then Some s else strchr s' c
  end.

(** [strcspn s reject] for a one-character reject set. *)
Fixpoint strcspn (s : string) (c : ascii) : nat :=
  match s with
  | EmptyString => 0
  | String a s' => if Ascii.eqb a c then 0 else S (strcspn s' c)
  end.

(** [strncmp s lit (strlen lit) == 0]. *)
Definition strncmp_eq (s lit : string) : bool := prefix lit s.

(** [strcmp a b == 0]. *)
Definition strcmp_eq (a b : string) : bool := String.eqb a b.

(** The terminator of a C string. *)
Definition NUL : ascii := Ascii.zero.

(** The C string that starts at the first of the memory cells [cells]:
    the characters in front of the first terminator. The list reaches as
    far as the memory is described; a read that meets no terminator ends
    where the list ends. *)
Fixpoint c_string (cells : list ascii) : string :=
  match cells with
  | [] => EmptyString
  | c :: rest => if Ascii.eqb c NUL then EmptyString else String c (c_string rest)
  end.

(** [fgets (buf, size, f)] on the cells of [buf]: the line and its
    terminator are stored from the first cell on; the cells behind the
    terminator keep what they held. *)
Definition fgets_store (line : string) (cells : list ascii) : list ascii :=
  (list_ascii_of_string line ++ NUL :: skipn (S (length line)) cells)%list.

(** [p] without its first [n] characters. *)
Fixpoint drop (n : nat) (p : string) : string :=
  match n, p with
  | O, _ => p
  | S n', String _ p' => drop n' p'
  | S _, EmptyString => EmptyString
  end.

(** Pointer arithmetic [p + n] on a C string [p] that lies in an array,
    read back as a C string; [behind] are the cells of the array that
    follow the terminator of [p]. Up to the terminator the result is the
    rest of [p]. Further on the pointer has left the string, and what is
    read is what the cells behind the terminator hold. *)
Definition advance (n : nat) (p : string) (behind : list ascii) : string :=
  if (n <=? length p)%nat then drop n p
  else c_string (skipn (n - S (length p)) behind).

(** [snprintf(buf, size, "%s,", s)]: at most [size - 1] characters are
    stored. *)
Definition snprintf_comma (size : nat) (s : string) : string :=
  substring 0 (size - 1) (s ++ ",").

(** A block obtained from [os::strdup s] holds [length s + 1] bytes. The
    store [ret[i] = '\0'] cuts the string at [i] when [i] lies in the
    block; an index past the terminator is outside the block and leaves
    the string that is read back from [ret] as it was. *)
Definition store_in_block (s : string) (i : nat) : bool := (i <=? length s)%nat.

Definition store_nul (s : string) (i : nat) : string :=
  if store_in_block s i then substring 0 i s else s.

Definition newline : ascii := ascii_of_nat 10.
Definition colon : ascii := ascii_of_nat 58.

End CString.

(** ** [VM_Version]: the feature registry and its detection pass *)

Module VMVersion.
Import CString.

(** The [RVFeatureValue] objects that the source names. *)
Inductive feature : Type :=
| ext_I | ext_M | ext_A | ext_F | ext_D | ext_C | ext_Q | ext_H | ext_V
| ext_Zicbom | ext_Zicboz | ext_Zicbop
| ext_Zba | ext_Zbb | ext_Zbc | ext_Zbs
| ext_Zicsr | ext_Zifencei | ext_Zic64b | ext_Zihintpause
| mvendorid | marchid | mimpid | unaligned_access | satp_mode.

Definition feature_eq_dec (a b : feature) : {a = b} + {a <> b}.
Proof. decide equality. Defined.

Definition feature_eqb (a b : feature) : bool :=
  if feature_eq_dec a b then true else false.

Inductive VM_MODE : Type :=
| VM_NOTSET | VM_MBARE | VM_SV39 | VM_SV48 | VM_SV57 | VM_SV64.

Definition is_notset (m : VM_MODE) : bool :=
  match m with VM_NOTSET => true | _ => false end.

(** The mutable part of one [RVFeatureValue]. *)
Record RVFeatureValue : Type := mkValue { _enabled : bool; _value : Z }.

(** The feature objects, by name: [_feature_list] holds pointers to the
    same objects, so both views read and write one store. *)
Definition Registry : Type := feature -> RVFeatureValue.

Definition upd (r : Registry) (f : feature) (v : RVFeatureValue) : Registry :=
  fun g => if feature_eq_dec g f then v else r g.

(** What the class declaration in [vm_version_riscv.hpp] fixes and this
    file only uses: the order of [_feature_list], the constant members of
    every feature, the flag each one maps to, the default argument of
    [enable_feature] and the enumerators passed to it. *)
Record Declarations (Flags : Type) : Type := mkDeclarations {
  _feature_list : list feature;
  pretty : feature -> string;
  feature_string : feature -> bool;
  feature_bit : feature -> Z;
  update_flag : feature -> Flags -> Flags;
  enable_default : Z;
  VM_MODE_value : VM_MODE -> Z;
  MISALIGNED_FAST : Z
}.
Arguments _feature_list {Flags}.
Arguments pretty {Flags}.
Arguments feature_string {Flags}.
Arguments feature_bit {Flags}.
Arguments update_flag {Flags}.
Arguments enable_default {Flags}.
Arguments VM_MODE_value {Flags}.
Arguments MISALIGNED_FAST {Flags}.

(** The four detection sources as the process finds them. *)
Record Platform : Type := mkPlatform {
  (** [RiscvHwprobe::probe_features()]: [None] when it reports failure,
      otherwise what it did to the registry before returning [true]. *)
  hwprobe : option (Registry -> Registry);
  (** [getauxval(AT_HWCAP)]. *)
  AT_HWCAP : Z;
  (** [/proc/cpuinfo]: [None] when [fopen] fails, otherwise what the
      successive [fgets] calls store in [buf]. *)
  proc_cpuinfo : option (list string);
  (** The array [buf] of [os_uarch_additional_features] is not
      initialised: the bytes that it, and the memory behind it, hold when
      the function is entered. *)
  buf_on_entry : list ascii
}.

Inductive syscall : Type :=
| sys_hwprobe (ok : bool)
| sys_getauxval
| sys_fopen (ok : bool)
| sys_fgets (line : option string)
| sys_fclose.

Record State (Flags : Type) : Type := mkState {
  registry : Registry;
  _features : Z;
  _features_string : option string;
  flags : Flags;
  (** calls into the operating system, oldest first *)
  syscalls : list syscall
}.
Arguments mkState {Flags}.
Arguments registry {Flags}.
Arguments _features {Flags}.
Arguments _features_string {Flags}.
Arguments flags {Flags}.
Arguments syscalls {Flags}.

(** [nth_bit] and the [HWCAP_ISA_x] fall-back macros of the source. *)
Definition nth_bit (n : Z) : Z := if (64 <=? n)%Z then 0%Z else Z.shiftl 1 n.

Definition letter_bit (c : ascii) : Z :=
  nth_bit (Z.of_nat (nat_of_ascii c) - Z.of_nat (nat_of_ascii "A")).

Definition HWCAP_ISA_I : Z := letter_bit "I".
Definition HWCAP_ISA_M : Z := letter_bit "M".
Definition HWCAP_ISA_A : Z := letter_bit "A".
Definition HWCAP_ISA_F : Z := letter_bit "F".
Definition HWCAP_ISA_D : Z := letter_bit "D".
Definition HWCAP_ISA_C : Z := letter_bit "C".
Definition HWCAP_ISA_Q : Z := letter_bit "Q".
Definition HWCAP_ISA_H : Z := letter_bit "H".
Definition HWCAP_ISA_V : Z := letter_bit "V".

Definition RIVOS_MVENDORID : Z := 0x6cf.

(** [parse_satp_mode]. *)
Definition parse_satp_mode (vm_mode : string) : VM_MODE :=
  if strcmp_eq vm_mode "sv39" then VM_SV39
  else if strcmp_eq vm_mode "sv48" then VM_SV48
  else if strcmp_eq vm_mode "sv57" then VM_SV57
  else if strcmp_eq vm_mode "sv64" then VM_SV64
  else VM_MBARE.

(** The body of the [while] loop of [os_uarch_additional_features], for
    the line [buf] that [fgets] has just stored; [behind] are the cells
    of the array behind the terminator of that line, which [fgets] has
    not written. [p + 2] is inside the line or at its terminator unless
    the colon is the last character of the line. *)
Definition scan_line (buf : string) (behind : list ascii) (mode : VM_MODE)
  (ret : option string) : VM_MODE * option string :=
  match strchr buf colon with
  | Some p =>
      let mode' :=
        if is_notset mode then
          if strncmp_eq buf "mmu" then parse_satp_mode p else mode
        else mode in
      let ret' :=
        match ret with
        | None =>
            if strncmp_eq buf "uarch"
            then Some (store_nul (advance 2 p behind) (strcspn p newline))
            else None
        | Some _ => ret
        end in
      (mode', ret')
  | None => (mode, ret)
  end.

Definition is_null (ret : option string) : bool :=
  match ret with None => true | Some _ => false end.

Section Detection.

Context {Flags : Type}.
Variable decl : Declarations Flags.
Variable os : Platform.

(** The state monad of the static members of [VM_Version]. *)
Definition VM (A : Type) : Type := State Flags -> A * State Flags.

Definition pure {A} (a : A) : VM A := fun s => (a, s).

Definition bind {A B} (m : VM A) (k : A -> VM B) : VM B :=
  fun s => let (a, s') := m s in k a s'.

Notation "x <- m ;; k" := (bind m (fun x => k))
  (at level 61, m at next level, right associativity).
Notation "m ;; k" := (bind m (fun _ => k))
  (at level 61, right associativity).

Definition trace (c : syscall) : VM unit :=
  fun s => (tt, mkState (registry s) (_features s) (_features_string s)
                        (flags s) (syscalls s ++ [c])).

(** Modelled from the spec: the accessors [enabled()] and [value()] of
    [RVFeatureValue] (same header) read the two fields. *)
Definition enabled (f : feature) : VM bool :=
  fun s => (_enabled (registry s f), s).

Definition value (f : feature) : VM Z :=
  fun s => (_value (registry s f), s).

(** Modelled from the spec: [RVFeatureValue::enable_feature(value)] is
    declared in [vm_version_riscv.hpp], which is not among the sources. An
    extension carries an enabled flag and a numeric value; enabling sets
    the flag and stores the value. *)
Definition enable_feature (f : feature) (v : Z) : VM unit :=
  fun s => (tt, mkState (upd (registry s) f (mkValue true v)) (_features s)
                        (_features_string s) (flags s) (syscalls s)).

Definition or_features (bit : Z) : VM unit :=
  fun s => (tt, mkState (registry s) (Z.lor (_features s) bit)
                        (_features_string s) (flags s) (syscalls s)).

Definition do_update_flag (f : feature) : VM unit :=
  fun s => (tt, mkState (registry s) (_features s) (_features_string s)
                        (update_flag decl f (flags s)) (syscalls s)).

Definition set_features_string (buf : string) : VM unit :=
  fun s => (tt, mkState (registry s) (_features s) (Some buf)
                        (flags s) (syscalls s)).

(** Modelled from the spec: [RiscvHwprobe::probe_features()] is not among
    the sources. It returns success or failure and, on success, has
    populated the registry. *)
Definition probe_features : VM bool :=
  match hwprobe os with
  | Some populate =>
      fun s => (true, mkState (populate (registry s)) (_features s)
                              (_features_string s) (flags s)
                              (syscalls s ++ [sys_hwprobe true]))
  | None => trace (sys_hwprobe false) ;; pure false
  end.

Definition getauxval_AT_HWCAP : VM Z :=
  trace sys_getauxval ;; pure (AT_HWCAP os).

Definition fopen_proc_cpuinfo : VM (option (list string)) :=
  match proc_cpuinfo os with
  | Some lines => trace (sys_fopen true) ;; pure (Some lines)
  | None => trace (sys_fopen false) ;; pure None
  end.

(** [os_aux_features]: the loop over [_feature_list]. *)
Fixpoint os_aux_loop (l : list feature) (auxv : Z) : VM unit :=
  match l with
  | [] => pure tt
  | f :: l' =>
      (if negb (Z.land (feature_bit decl f) auxv =? 0)%Z
       then enable_feature f (enable_default decl)
       else pure tt) ;;
      os_aux_loop l' auxv
  end.

Definition os_aux_features : VM unit :=
  auxv <- getauxval_AT_HWCAP ;;
  os_aux_loop (_feature_list decl) auxv.

(** The [while] loop of [os_uarch_additional_features] on the lines that
    [fgets] has still to return, with the cells of [buf] as the calls
    before left them. The condition calls [fgets] first and looks at
    [mode] and [ret] only when a line was read. *)
Fixpoint scan (f : list string) (cells : list ascii) (mode : VM_MODE)
  (ret : option string) : VM (VM_MODE * option string) :=
  match f with
  | [] => trace (sys_fgets None) ;; pure (mode, ret)
  | buf :: f' =>
      trace (sys_fgets (Some buf)) ;;
      if is_notset mode || is_null ret then
        let (mode', ret') :=
          scan_line buf (skipn (S (length buf)) (fgets_store buf cells))
                    mode ret in
        scan f' (fgets_store buf cells) mode' ret'
      else pure (mode, ret)
  end.

Definition os_uarch_additional_features : VM (option string) :=
  f <- fopen_proc_cpuinfo ;;
  match f with
  | None => pure None
  | Some lines =>
      r <- scan lines (buf_on_entry os) VM_NOTSET None ;;
      let mode := if is_notset (fst r) then VM_MBARE else fst r in
      trace sys_fclose ;;
      enable_feature satp_mode (VM_MODE_value decl mode) ;;
      pure (snd r)
  end.

Definition rivos_features : VM unit :=
  enable_feature ext_I (enable_default decl) ;;
  enable_feature ext_M (enable_default decl) ;;
  enable_feature ext_A (enable_default decl) ;;
  enable_feature ext_F (enable_default decl) ;;
  enable_feature ext_D (enable_default decl) ;;
  enable_feature ext_C (enable_default decl) ;;
  enable_feature ext_Q (enable_default decl) ;;
  enable_feature ext_H (enable_default decl) ;;
  enable_feature ext_V (enable_default decl) ;;
  enable_feature ext_Zicbom (enable_default decl) ;;
  enable_feature ext_Zicboz (enable_default decl) ;;
  enable_feature ext_Zicbop (enable_default decl) ;;
  enable_feature ext_Zba (enable_default decl) ;;
  enable_feature ext_Zbb (enable_default decl) ;;
  enable_feature ext_Zbc (enable_default decl) ;;
  enable_feature ext_Zbs (enable_default decl) ;;
  enable_feature ext_Zicsr (enable_default decl) ;;
  enable_feature ext_Zifencei (enable_default decl) ;;
  enable_feature ext_Zic64b (enable_default decl) ;;
  enable_feature ext_Zihintpause (enable_default decl) ;;
  enable_feature unaligned_access (MISALIGNED_FAST decl) ;;
  enable_feature satp_mode (VM_MODE_value decl VM_SV48).

Definition vendor_features : VM unit :=
  en <- enabled mvendorid ;;
  if negb en then pure tt
  else
    v <- value mvendorid ;;
    if (v =? RIVOS_MVENDORID)%Z then rivos_features else pure tt.

(** What one enabled feature appends to [buf]. [strcat] is
    concatenation as long as the 1024 bytes of [buf] are not exceeded
    (see [token_room]). For a name that has not one character the source
    asserts that it has more than one: for the empty name the assertion
    fails, and a build without assertions appends the underscore and
    then reads [&tmp[1]] behind the terminator of the name, which is
    taken as empty here. What is proved about the text of the string is
    proved for names that meet the assertion. *)
Definition append_feature (buf : string) (f : feature) : string :=
  if feature_string decl f then
    let tmp := pretty decl f in
    if (length tmp =? 1)%nat then buf ++ tmp
    else
      match tmp with
      | String c rest => (buf ++ String "_" (String (tolower c) "")) ++ rest
      | EmptyString => buf ++ "_"
      end
  else buf.

(** The [while] loop of [setup_cpu_available_features]. *)
Fixpoint features_loop (l : list feature) (buf : string) : VM string :=
  match l with
  | [] => pure buf
  | f :: l' =>
      en <- enabled f ;;
      if en then
        (if negb (feature_bit decl f =? 0)%Z
         then or_features (feature_bit decl f) else pure tt) ;;
        do_update_flag f ;;
        features_loop l' (append_feature buf f)
      else features_loop l' buf
  end.

(** The prefix that [snprintf] leaves in the zeroed [buf]. *)
Definition uarch_prefix (uarch : option string) : string :=
  match uarch with
  | Some u => if negb (strcmp_eq u "") then snprintf_comma 512 u else ""
  | None => ""
  end.

Definition setup_cpu_available_features : VM unit :=
  ok <- probe_features ;;
  (if negb ok then os_aux_features else pure tt) ;;
  uarch <- os_uarch_additional_features ;;
  vendor_features ;;
  buf <- features_loop (_feature_list decl) (uarch_prefix uarch ++ "rv64") ;;
  set_features_string buf.

End Detection.

(** The state an action leaves and the value it returns. *)
Definition exec {Flags A} (m : VM (Flags := Flags) A) (s : State Flags)
  : State Flags :=
  snd (m s).

Definition eval {Flags A} (m : VM (Flags := Flags) A) (s : State Flags) : A :=
  fst (m s).

(** An action that leaves everything but the registry alone. *)
Definition registry_only {Flags A} (m : VM (Flags := Flags) A) : Prop :=
  forall s, let s' := exec m s in
  _features s' = _features s /\ _features_string s' = _features_string s /\
  flags s' = flags s /\ syscalls s' = syscalls s.

(** An action that changes a feature only by enabling it. *)
Definition only_enables {Flags A} (m : VM (Flags := Flags) A) : Prop :=
  forall s g, _enabled (registry (exec m s) g) = true \/
              registry (exec m s) g = registry s g.

(** The first statement of [setup_cpu_available_features] on its own:
    the choice between the hardware probe and the capability bitmask. *)
Definition isa_sources {Flags} (decl : Declarations Flags) (os : Platform)
  : VM (Flags := Flags) unit :=
  bind (probe_features os)
       (fun ok => if negb ok then os_aux_features decl os else pure tt).

(** The lines that [fgets] handed out, in order. *)
Fixpoint lines_read (calls : list syscall) : list string :=
  match calls with
  | [] => []
  | sys_fgets (Some l) :: calls' => l :: lines_read calls'
  | _ :: calls' => lines_read calls'
  end.

(** The cells of [buf] behind the terminator of the line [line] that
    [fgets] stores over [cells]: they are those that [cells] had there. *)
Definition behind_line (line : string) (cells : list ascii) : list ascii :=
  skipn (S (length line)) cells.

(** The loop body run on every line of [lines], without the exit test. *)
Fixpoint scan_all (lines : list string) (cells : list ascii) (mode : VM_MODE)
  (ret : option string) : VM_MODE * option string :=
  match lines with
  | [] => (mode, ret)
  | buf :: rest =>
      let st := scan_line buf (behind_line buf cells) mode ret in
      scan_all rest (fgets_store buf cells) (fst st) (snd st)
  end.

(** Both target fields have been found. *)
Definition both_found (st : VM_MODE * option string) : bool :=
  negb (is_notset (fst st)) && negb (is_null (snd st)).

(** A line that carries the translation mode, and one that carries the
    micro-architecture name, as the loop body recognises them. *)
Definition is_mmu_line (buf : string) : bool :=
  match strchr buf colon with
  | Some _ => strncmp_eq buf "mmu"
  | None => false
  end.

Definition is_uarch_line (buf : string) : bool :=
  match strchr buf colon with
  | Some _ => strncmp_eq buf "uarch"
  | None => false
  end.

(** The colon of the line, if it has one, is not its last character:
    [p + 2] does not leave the line and its terminator. *)
Definition reads_within (buf : string) : bool :=
  match strchr buf colon with
  | Some p => (2 <=? length p)%nat
  | None => true
  end.

(** What the loop body takes from a line whose colon is not its last
    character, by the line alone. *)
Definition mode_of_line (buf : string) : VM_MODE :=
  fst (scan_line buf [] VM_NOTSET None).

Definition name_of_line (buf : string) : option string :=
  snd (scan_line buf [] VM_NOTSET None).

(** The mode of the first line that carries one. *)
Definition first_mmu (lines : list string) : VM_MODE :=
  match find is_mmu_line lines with
  | Some buf => mode_of_line buf
  | None => VM_NOTSET
  end.

(** The name that the loop body takes from the first line that carries
    one, with the cells of [buf] as the lines in front of it leave
    them. *)
Fixpoint first_uarch (cells : list ascii) (lines : list string) : option string :=
  match lines with
  | [] => None
  | buf :: rest =>
      if is_uarch_line buf
      then snd (scan_line buf (behind_line buf cells) VM_NOTSET None)
      else first_uarch (fgets_store buf cells) rest
  end.

(** The features that [rivos_features] enables. *)
Definition rivos_bundle : list feature :=
  [ ext_I; ext_M; ext_A; ext_F; ext_D; ext_C; ext_Q; ext_H; ext_V;
    ext_Zicbom; ext_Zicboz; ext_Zicbop; ext_Zba; ext_Zbb; ext_Zbc; ext_Zbs;
    ext_Zicsr; ext_Zifencei; ext_Zic64b; ext_Zihintpause;
    unaligned_access; satp_mode ].

(** The room in [buf] that the tokens of the features [l] can take: one
    separator and the name for each. *)
Definition token_room {Flags} (decl : Declarations Flags) (l : list feature) : nat :=
  fold_right (fun f n => S (length (pretty decl f)) + n) 0 l.


(** The loop fetches no line behind a prefix [pre] of [lines] in which
    both fields were found. *)
Definition reads_nothing_past {Flags} (lines : list string)
  (cells : list ascii) (s : State Flags) : Prop :=
  forall pre rest, lines = (pre ++ rest)%list ->
    both_found (scan_all pre cells VM_NOTSET None) = true ->
    (List.length (lines_read (syscalls (exec (scan lines cells VM_NOTSET None) s))) <=
     List.length (lines_read (syscalls s)) + List.length pre)%nat.

(** The state that [satp_mode.enable_feature(mode)] leaves behind: the
    translation mode is recorded as [m]. *)
Definition satp_mode_is {Flags} (decl : Declarations Flags) (s : State Flags)
  (m : VM_MODE) : Prop :=
  _enabled (registry s satp_mode) = true /\
  _value (registry s satp_mode) = VM_MODE_value decl m.

(** The assertions that open [setup_cpu_available_features]. *)
Definition bits_follow_hwcap {Flags} (decl : Declarations Flags) : Prop :=
  feature_bit decl ext_I = HWCAP_ISA_I /\
  feature_bit decl ext_M = HWCAP_ISA_M /\
  feature_bit decl ext_A = HWCAP_ISA_A /\
  feature_bit decl ext_F = HWCAP_ISA_F /\
  feature_bit decl ext_D = HWCAP_ISA_D /\
  feature_bit decl ext_C = HWCAP_ISA_C /\
  feature_bit decl ext_Q = HWCAP_ISA_Q /\
  feature_bit decl ext_H = HWCAP_ISA_H /\
  feature_bit decl ext_V = HWCAP_ISA_V.

(** *** The canonical string in the words of the specification *)

(** Lower case, letter by letter: a capital letter of the alphabet
    becomes its small letter, every other character stays. *)
Definition small_letter (c : ascii) : ascii :=
  match c with
  | "A" => "a" | "B" => "b" | "C" => "c" | "D" => "d" | "E" => "e"
  | "F" => "f" | "G" => "g" | "H" => "h" | "I" => "i" | "J" => "j"
  | "K" => "k" | "L" => "l" | "M" => "m" | "N" => "n" | "O" => "o"
  | "P" => "p" | "Q" => "q" | "R" => "r" | "S" => "s" | "T" => "t"
  | "U" => "u" | "V" => "v" | "W" => "w" | "X" => "x" | "Y" => "y"
  | "Z" => "z"
  | _ => c
  end%char.






(** *** A registry declaration to run the detector on *)

(** Modelled from the spec: the table of [vm_version_riscv.hpp] is not
    among the sources. This instance follows the spec's registry: the
    nine single-letter extensions at bit ['X' - 'A'] (as the source
    asserts), rendered as bare lower-case letters; the multi-letter
    extensions without a bit, rendered as [_zname]; five settings that
    take no part in the string. *)
Definition jdk_pretty (f : feature) : string :=
  match f with
  | ext_I => "i" | ext_M => "m" | ext_A => "a" | ext_F => "f" | ext_D => "d"
  | ext_C => "c" | ext_Q => "q" | ext_H => "h" | ext_V => "v"
  | ext_Zicbom => "Zicbom" | ext_Zicboz => "Zicboz" | ext_Zicbop => "Zicbop"
  | ext_Zba => "Zba" | ext_Zbb => "Zbb" | ext_Zbc => "Zbc" | ext_Zbs => "Zbs"
  | ext_Zicsr => "Zicsr" | ext_Zifencei => "Zifencei" | ext_Zic64b => "Zic64b"
  | ext_Zihintpause => "Zihintpause"
  | mvendorid => "VendorId" | marchid => "ArchId" | mimpid => "ImpId"
  | unaligned_access => "Unaligned" | satp_mode => "SATP"
  end.

Definition jdk_feature_string (f : feature) : bool :=
  match f with
  | mvendorid | marchid | mimpid | unaligned_access | satp_mode => false
  | _ => true
  end.

Definition jdk_feature_bit (f : feature) : Z :=
  match f with
  | ext_I => letter_bit "I" | ext_M => letter_bit "M" | ext_A => letter_bit "A"
  | ext_F => letter_bit "F" | ext_D => letter_bit "D" | ext_C => letter_bit "C"
  | ext_Q => letter_bit "Q" | ext_H => letter_bit "H" | ext_V => letter_bit "V"
  | _ => nth_bit 65
  end.

Definition jdk_feature_list : list feature :=
  [ ext_I; ext_M; ext_A; ext_F; ext_D; ext_C; ext_Q; ext_H; ext_V;
    ext_Zicbom; ext_Zicboz; ext_Zicbop; ext_Zba; ext_Zbb; ext_Zbc; ext_Zbs;
    ext_Zicsr; ext_Zifencei; ext_Zic64b; ext_Zihintpause;
    mvendorid; marchid; mimpid; unaligned_access; satp_mode ].

(** The flags are kept as the list of features whose flag default was
    touched, most recent first. *)
Definition jdk_declarations : Declarations (list feature) :=
  {| _feature_list := jdk_feature_list;
     pretty := jdk_pretty;
     feature_string := jdk_feature_string;
     feature_bit := jdk_feature_bit;
     update_flag := fun f fl => f :: fl;
     enable_default := 0;
     VM_MODE_value := fun m =>
       match m with
       | VM_NOTSET => -1 | VM_MBARE => 0 | VM_SV39 => 39
       | VM_SV48 => 48 | VM_SV57 => 57 | VM_SV64 => 64
       end%Z;
     MISALIGNED_FAST := 3 |}.

(** Before the detection pass: every feature disabled, no value. *)
Definition initial_state : State (list feature) :=
  mkState (fun _ => mkValue false (-1)) 0 None [] [].

Definition nl : string := String newline "".
Definition tab : string := String (ascii_of_nat 9) "".

(** A line of the pseudo-file as the kernel prints it: the key, two
    tabs, a colon, a space, the value and a newline. *)
Definition cpuinfo_line (key value : string) : string :=
  key ++ tab ++ tab ++ ": " ++ value ++ nl.

(** *** What the rest of the pass is measured against *)

(** A name with the small letter in the place of its first
    character. *)
Definition first_in_lower_case (name : string) : string :=
  match name with
  | EmptyString => EmptyString
  | String c rest => String (small_letter c) rest
  end.

(** How a name shows in the features string: as it is when it has one
    character, otherwise behind an underscore and with its first
    character in lower case. *)
Definition printed (name : string) : string :=
  if (length name =? 1)%nat then name else "_" ++ first_in_lower_case name.

(** The assertion in the loop of [setup_cpu_available_features]: a name
    that has not one character has more than one. *)
Definition names_asserted {Flags} (decl : Declarations Flags) : Prop :=
  forall f, In f (_feature_list decl) -> feature_string decl f = true ->
            pretty decl f <> "".

(** The declarations above with capital letters behind the first
    character of one name. *)
Definition renamed_declarations : Declarations (list feature) :=
  {| _feature_list := jdk_feature_list;
     pretty := fun f => match f with ext_Zba => "ZBA" | _ => jdk_pretty f end;
     feature_string := jdk_feature_string;
     feature_bit := jdk_feature_bit;
     update_flag := fun f fl => f :: fl;
     enable_default := 0;
     VM_MODE_value := VM_MODE_value jdk_declarations;
     MISALIGNED_FAST := 3 |}.

(** A line on which the loop body does something: it has a colon and
    starts with one of the two keys. *)
Definition carries_field (buf : string) : bool :=
  is_mmu_line buf || is_uarch_line buf.

Definition is_fgets (c : syscall) : bool :=
  match c with sys_fgets _ => true | _ => false end.

(** A line that [fgets (buf, sizeof (buf), f)] can store in the 512 bytes
    of [buf]. *)
Definition fgets_sized (buf : string) : Prop := length buf <= 511.

(** The value that [rivos_features] passes to [enable_feature]. *)
Definition rivos_value {Flags} (decl : Declarations Flags) (f : feature) : Z :=
  match f with
  | unaligned_access => MISALIGNED_FAST decl
  | satp_mode => VM_MODE_value decl VM_SV48
  | _ => enable_default decl
  end.

(** The state before the pass, with the registry [r]. *)
Definition state_with (r : Registry) : State (list feature) :=
  mkState r 0 None [] [].

(** The letter of the [HWCAP_ISA_x] macro that the opening assertions
    tie a feature to. *)
Definition hwcap_letter (f : feature) : option ascii :=
  match f with
  | ext_I => Some "I" | ext_M => Some "M" | ext_A => Some "A"
  | ext_F => Some "F" | ext_D => Some "D" | ext_C => Some "C"
  | ext_Q => Some "Q" | ext_H => Some "H" | ext_V => Some "V"
  | _ => None
  end%char.

(** An action that leaves the feature mask and the flags alone. *)
Definition keeps_mask_and_flags {Flags A} (m : VM (Flags := Flags) A) : Prop :=
  forall s, _features (exec m s) = _features s /\ flags (exec m s) = flags s.

End VMVersion.

(** ** The C2 code stubs and the assembler they drive *)

Module CodeStubs.

Local Open Scope list_scope.
Local Open Scope Z_scope.

Definition byte : Type := Byte.byte.

Inductive Register : Type := x0 | ra | t0 | xthread.

(** The labels of a stub: [entry()], [guard()] and [continuation()]. *)
Inductive Label : Type := entry | guard | continuation.

Definition Label_eq_dec (a b : Label) : {a = b} + {a <> b}.
Proof. decide equality. Defined.

Inductive relocType : Type :=
| internal_word_type | runtime_call_type | entry_guard_type.

(** An address together with the relocation it asks for: what
    [InternalAddress] and [RuntimeAddress] construct and [target()] and
    [rspec()] read. *)
Record AddressLiteral : Type := mkLiteral { target : Z; rspec : relocType }.

Definition InternalAddress (a : Z) : AddressLiteral := mkLiteral a internal_word_type.
Definition RuntimeAddress (a : Z) : AddressLiteral := mkLiteral a runtime_call_type.

(** The code section the assembler writes to: where it starts, the bytes
    written so far, the relocation records (address and kind) and the
    addresses the labels are bound to. *)
Record C2_MacroAssembler : Type := mkMasm {
  sect_start : Z;
  insts : list byte;
  relocs : list (Z * relocType);
  labels : Label -> option Z
}.

Definition offset_of (m : C2_MacroAssembler) : Z := Z.of_nat (List.length (insts m)).
Definition pc_of (m : C2_MacroAssembler) : Z := sect_start m + offset_of m.

(** The byte sequences the instruction encoder produces. The encoder is
    not part of the sources; every sequence may depend on the operands
    and on the position it is emitted at. The second component of
    [la_patchable_code] and [movptr_code] is the [offset] they hand back
    by reference. [far_jump] is handed an address with its relocation:
    the second component of [far_jump_code] holds the relocation records
    that it adds. *)
Record Encoder : Type := mkEncoder {
  la_patchable_code : Register -> Z -> Z -> list byte * Z;
  addi_code : Register -> Register -> Z -> list byte;
  sd_code : Register -> Register -> Z -> list byte;
  far_jump_code : AddressLiteral -> Z -> list byte * list (Z * relocType);
  movptr_code : Register -> Z -> list byte * Z;
  jalr_code : Register -> Register -> Z -> list byte;
  j_code : option Z -> Z -> list byte;
  pad_byte : byte
}.

(** The addresses the stubs refer to. *)
Record Runtime : Type := mkRuntime {
  polling_page_return_handler : Z;
  method_entry_barrier : Z;
  saved_exception_pc_offset : Z
}.

Definition byte_of_Z (z : Z) : byte :=
  match Byte.of_N (Z.to_N (z mod 256)) with
  | Some b => b
  | None => Byte.x00
  end.

(** The four bytes of a 32-bit word, least significant first. *)
Definition int32_bytes (x : Z) : list byte :=
  [ byte_of_Z x; byte_of_Z (Z.shiftr x 8);
    byte_of_Z (Z.shiftr x 16); byte_of_Z (Z.shiftr x 24) ].

(** The number of bytes that take [pc] to the next multiple of
    [modulus]. *)
Definition padding (modulus pc : Z) : nat := Z.to_nat ((- pc) mod modulus).

Section Emit.

Variable enc : Encoder.
Variable rt : Runtime.

Definition Asm (A : Type) : Type := C2_MacroAssembler -> A * C2_MacroAssembler.

Definition pure {A} (a : A) : Asm A := fun m => (a, m).

Definition seq {A B} (c : Asm A) (k : A -> Asm B) : Asm B :=
  fun m => let (a, m') := c m in k a m'.

Notation "x <- c ;; k" := (seq c (fun x => k))
  (at level 61, c at next level, right associativity).
Notation "c ;; k" := (seq c (fun _ => k))
  (at level 61, right associativity).

(** Modelled from the spec: [pc()] and [offset()] of the assembler, the
    current position as an address and relative to the section start. *)
Definition pc : Asm Z := fun m => (pc_of m, m).
Definition offset : Asm Z := fun m => (offset_of m, m).

Definition emit_bytes (bs : list byte) : Asm unit :=
  fun m => (tt, mkMasm (sect_start m) (insts m ++ bs) (relocs m) (labels m)).

(** Modelled from the spec: the assembler primitives are not among the
    sources. Label binding ties the label to the current position. *)
Definition bind (L : Label) : Asm unit :=
  fun m => (tt, mkMasm (sect_start m) (insts m) (relocs m)
                       (fun L' => if Label_eq_dec L' L then Some (pc_of m)
                                  else labels m L')).

(** Modelled from the spec: relocation metadata attaches to the
    instruction or data word emitted next, at the current position. *)
Definition relocate (r : relocType) : Asm unit :=
  fun m => (tt, mkMasm (sect_start m) (insts m)
                       (relocs m ++ [(pc_of m, r)]) (labels m)).

(** Modelled from the spec: relocatable address materialization; the
    low part of the address is handed back in [offset]. *)
Definition la_patchable (rd : Register) (dest : Z) : Asm Z :=
  p <- pc ;;
  emit_bytes (fst (la_patchable_code enc rd dest p)) ;;
  pure (snd (la_patchable_code enc rd dest p)).

(** Modelled from the spec: the add-immediate instruction that
    completes the address pair. *)
Definition addi (rd rs : Register) (imm : Z) : Asm unit :=
  emit_bytes (addi_code enc rd rs imm).

(** Modelled from the spec: the store instruction. *)
Definition sd (rs base : Register) (disp : Z) : Asm unit :=
  emit_bytes (sd_code enc rs base disp).

(** Modelled from the spec: the unconditional far jump, short-range or
    long-range and relocatable by the distance of its target. Which
    relocation records it adds for the address it is handed is the
    encoder's matter. *)
Definition far_jump (dest : AddressLiteral) : Asm unit :=
  p <- pc ;;
  (fun m => (tt, mkMasm (sect_start m) (insts m)
                        (relocs m ++ snd (far_jump_code enc dest p))
                        (labels m))) ;;
  emit_bytes (fst (far_jump_code enc dest p)).

(** Modelled from the spec: materialization of an absolute address whose
    low bits are handed back in [offset]. *)
Definition movptr (rd : Register) (addr : Z) : Asm Z :=
  emit_bytes (fst (movptr_code enc rd addr)) ;;
  pure (snd (movptr_code enc rd addr)).

(** Modelled from the spec: the register-indirect call with offset. *)
Definition jalr (rd rs : Register) (imm : Z) : Asm unit :=
  emit_bytes (jalr_code enc rd rs imm).

(** Modelled from the spec: the jump to a label. *)
Definition j (L : Label) : Asm unit :=
  fun m => emit_bytes (j_code enc (labels m L) (pc_of m)) m.

(** Modelled from the spec: the alignment directive pads until the
    position is a multiple of [modulus]. *)
Definition align (modulus : Z) : Asm unit :=
  p <- pc ;;
  emit_bytes (repeat (pad_byte enc) (padding modulus p)).

(** Modelled from the spec: raw-word emission. *)
Definition emit_int32 (x : Z) : Asm unit := emit_bytes (int32_bytes x).

(** *** [C2SafepointPollStub] *)

Definition C2SafepointPollStub_max_size : Z := 13 * 4.

Definition C2SafepointPollStub_emit (_safepoint_offset : Z) : Asm unit :=
  let stub := polling_page_return_handler rt in
  let callback_addr := RuntimeAddress stub in
  bind entry ;;
  p <- pc ;;
  o <- offset ;;
  let safepoint_pc := InternalAddress (p - o + _safepoint_offset) in
  relocate (rspec safepoint_pc) ;;
  off <- la_patchable t0 (target safepoint_pc) ;;
  addi t0 t0 off ;;
  sd t0 xthread (saved_exception_pc_offset rt) ;;
  far_jump callback_addr.

(** *** [C2EntryBarrierStub] *)

Definition C2EntryBarrierStub_max_size : Z := 8 * 4 + 4.

Definition C2EntryBarrierStub_emit : Asm unit :=
  bind entry ;;
  off <- movptr t0 (method_entry_barrier rt) ;;
  jalr ra t0 off ;;
  j continuation ;;
  align 4 ;;
  bind guard ;;
  relocate entry_guard_type ;;
  emit_int32 0.

End Emit.

Definition run {A} (c : Asm A) (m : C2_MacroAssembler) : C2_MacroAssembler :=
  snd (c m).

(** The call sequence that opens the entry-barrier stub, as emitted on
    top of [m]: [movptr], [jalr] and the jump to [continuation()]. *)
Definition barrier_call (enc : Encoder) (rt : Runtime) (m : C2_MacroAssembler)
  : list byte :=
  let mv := movptr_code enc t0 (method_entry_barrier rt) in
  let c1 := fst mv in
  let c2 := jalr_code enc ra t0 (snd mv) in
  c1 ++ c2 ++
  j_code enc (labels m continuation)
         (pc_of m + Z.of_nat (List.length c1 + List.length c2)).

(** The bytes of the section from address [a] on. *)
Definition bytes_at (m : C2_MacroAssembler) (a : Z) : list byte :=
  skipn (Z.to_nat (a - sect_start m)) (insts m).

(** The number of bytes an emitter added to the section. *)
Definition emitted (m m' : C2_MacroAssembler) : Z := offset_of m' - offset_of m.

(** Modelled from the spec: the size contract of the stubs. The bound
    of a stub is conservative because the encoded length depends on the
    distance of the target, and [max_size()] is a sum of instruction
    words, 4 bytes each. The budget of every primitive is its term in
    that sum: a machine instruction ([addi], [sd], [jalr], [j]) is one
    word; an address is materialized in at most five ([la_patchable],
    [movptr]); the far jump is such a materialization and a jump, six.
    That makes the 13 words of the safepoint-poll stub, 5 + 1 + 1 + 6, and
    the 8 of the entry-barrier stub, 5 + 1 + 1 and the guard word. *)
Record SizeContract (enc : Encoder) : Prop := mkSizeContract {
  la_patchable_size : forall rd dest p,
    (List.length (fst (la_patchable_code enc rd dest p)) <= 5 * 4)%nat;
  addi_size : forall rd rs imm, (List.length (addi_code enc rd rs imm) <= 4)%nat;
  sd_size : forall rs base disp, (List.length (sd_code enc rs base disp) <= 4)%nat;
  far_jump_size : forall dest p,
    (List.length (fst (far_jump_code enc dest p)) <= 6 * 4)%nat;
  movptr_size : forall rd addr,
    (List.length (fst (movptr_code enc rd addr)) <= 5 * 4)%nat;
  jalr_size : forall rd rs imm, (List.length (jalr_code enc rd rs imm) <= 4)%nat;
  j_size : forall dest p, (List.length (j_code enc dest p) <= 4)%nat
}.

(** *** An encoder to run the emitters on

    The uncompressed RV64 encodings: every instruction is one 32-bit word,
    stored least significant byte first. *)

Definition regno (r : Register) : Z :=
  match r with x0 => 0 | ra => 1 | t0 => 5 | xthread => 23 end.

Definition field (lo width x : Z) : Z := Z.land (Z.shiftr x lo) (Z.ones width).

Definition sext12 (x : Z) : Z := (x + 2048) mod 4096 - 2048.

Definition I_type (opcode funct3 : Z) (rd rs : Register) (imm : Z) : Z :=
  Z.shiftl (field 0 12 imm) 20 + Z.shiftl (regno rs) 15 +
  Z.shiftl funct3 12 + Z.shiftl (regno rd) 7 + opcode.

Definition U_type (opcode : Z) (rd : Register) (imm : Z) : Z :=
  Z.shiftl (field 12 20 imm) 12 + Z.shiftl (regno rd) 7 + opcode.

Definition S_type (opcode funct3 : Z) (rs2 rs1 : Register) (imm : Z) : Z :=
  Z.shiftl (field 5 7 imm) 25 + Z.shiftl (regno rs2) 20 +
  Z.shiftl (regno rs1) 15 + Z.shiftl funct3 12 +
  Z.shiftl (field 0 5 imm) 7 + opcode.

Definition J_type (opcode : Z) (rd : Register) (imm : Z) : Z :=
  Z.shiftl (field 20 1 imm) 31 + Z.shiftl (field 1 10 imm) 21 +
  Z.shiftl (field 11 1 imm) 20 + Z.shiftl (field 12 8 imm) 12 +
  Z.shiftl (regno rd) 7 + opcode.

Definition rv_addi (rd rs : Register) (imm : Z) : list byte :=
  int32_bytes (I_type 0x13 0 rd rs imm).
Definition rv_slli (rd rs : Register) (shamt : Z) : list byte :=
  int32_bytes (I_type 0x13 1 rd rs shamt).
Definition rv_jalr (rd rs : Register) (imm : Z) : list byte :=
  int32_bytes (I_type 0x67 0 rd rs imm).
Definition rv_lui (rd : Register) (imm : Z) : list byte :=
  int32_bytes (U_type 0x37 rd imm).
Definition rv_auipc (rd : Register) (imm : Z) : list byte :=
  int32_bytes (U_type 0x17 rd imm).
Definition rv_sd (rs2 rs1 : Register) (imm : Z) : list byte :=
  int32_bytes (S_type 0x23 3 rs2 rs1 imm).
Definition rv_jal (rd : Register) (imm : Z) : list byte :=
  int32_bytes (J_type 0x6f rd imm).

Definition rv_movptr (rd : Register) (addr : Z) : list byte * Z :=
  let imm := Z.shiftr addr 17 in
  let lower := sext12 imm in
  let upper := imm - lower in
  (rv_lui rd upper ++ rv_addi rd rd lower ++ rv_slli rd rd 11 ++
   rv_addi rd rd (Z.land (Z.shiftr addr 6) 0x7ff) ++ rv_slli rd rd 6,
   Z.land addr 0x3f).

(** Within 2 GiB of the position the address is formed from the program
    counter by one instruction, further away by the five of [movptr]. *)
Definition rv_la_patchable (rd : Register) (dest p : Z) : list byte * Z :=
  let distance := dest - p in
  if (- 2 ^ 31 <=? distance) && (distance <? 2 ^ 31)
  then (rv_auipc rd (distance + 0x800), sext12 distance)
  else rv_movptr rd dest.

(** Within reach of a jump instruction the far jump is that instruction;
    beyond it is the address in [t0] and a jump through it, with the
    relocation of the address recorded at its first instruction. *)
Definition rv_far_jump (dest : AddressLiteral) (p : Z)
  : list byte * list (Z * relocType) :=
  let distance := target dest - p in
  if (- 2 ^ 20 <=? distance) && (distance <? 2 ^ 20)
  then (rv_jal x0 distance, [])
  else (fst (rv_la_patchable t0 (target dest) p) ++
        rv_jalr x0 t0 (snd (rv_la_patchable t0 (target dest) p)),
        [(p, rspec dest)]).

Definition rv_j (dest : option Z) (p : Z) : list byte :=
  match dest with
  | Some a => rv_jal x0 (a - p)
  | None => rv_jal x0 0
  end.

Definition rv64 : Encoder :=
  {| la_patchable_code := rv_la_patchable;
     addi_code := rv_addi;
     sd_code := rv_sd;
     far_jump_code := rv_far_jump;
     movptr_code := rv_movptr;
     jalr_code := rv_jalr;
     j_code := rv_j;
     pad_byte := Byte.x00 |}.

Definition a_runtime : Runtime :=
  {| polling_page_return_handler := 0x7f0010400000;
     method_entry_barrier := 0x7f0000123458;
     saved_exception_pc_offset := 920 |}.

(** The same with the handler further than 2 GiB from the code. *)
Definition a_distant_runtime : Runtime :=
  {| polling_page_return_handler := 0x10000;
     method_entry_barrier := 0x7f0000123458;
     saved_exception_pc_offset := 920 |}.

(** A section that starts at [start] and already holds [n] bytes. *)
Definition section_at (start : Z) (n : nat) : C2_MacroAssembler :=
  mkMasm start (repeat Byte.x00 n) [] (fun _ => None).

(** An encoder without compressed instructions: every sequence is a
    whole number of 32-bit words. *)
Record WordSized (enc : Encoder) : Prop := mkWordSized {
  la_patchable_words : forall rd dest p,
    Z.of_nat (List.length (fst (la_patchable_code enc rd dest p))) mod 4 = 0;
  addi_words : forall rd rs imm,
    Z.of_nat (List.length (addi_code enc rd rs imm)) mod 4 = 0;
  sd_words : forall rs base disp,
    Z.of_nat (List.length (sd_code enc rs base disp)) mod 4 = 0;
  far_jump_words : forall dest p,
    Z.of_nat (List.length (fst (far_jump_code enc dest p))) mod 4 = 0;
  movptr_words : forall rd addr,
    Z.of_nat (List.length (fst (movptr_code enc rd addr))) mod 4 = 0;
  jalr_words : forall rd rs imm,
    Z.of_nat (List.length (jalr_code enc rd rs imm)) mod 4 = 0;
  j_words : forall dest p,
    Z.of_nat (List.length (j_code enc dest p)) mod 4 = 0
}.

End CodeStubs.

(** * Properties of the detection pass *)

Module VMVersionFacts.
Import CString VMVersion.

(** ** Strings *)

Lemma app_string_assoc (a b c : string) : (a ++ b) ++ c = a ++ (b ++ c).
Proof. induction a as [|x a IH]; simpl; [reflexivity | now rewrite IH]. Qed.

Lemma app_string_nil_r (a : string) : a ++ "" = a.
Proof. induction a as [|x a IH]; simpl; [reflexivity | now rewrite IH]. Qed.

Lemma length_app_string (a b : string) : length (a ++ b) = length a + length b.
Proof. induction a as [|x a IH]; simpl; [reflexivity | now rewrite IH]. Qed.

Lemma length_substring_le (n m : nat) (a : string) : length (substring n m a) <= m.
Proof.
  revert n m. induction a as [|x a IH]; intros n m.
  - destruct n, m; simpl; lia.
  - destruct n as [|n]; destruct m as [|m]; simpl; try lia.
    + specialize (IH 0 m). lia.
    + apply IH.
    + apply IH.
Qed.

Lemma length_drop (n : nat) (p : string) :
  length (drop n p) = length p - n.
Proof.
  revert p. induction n as [|n IH]; intros p; simpl.
  - lia.
  - destruct p as [|c p]; simpl; [reflexivity | apply IH].
Qed.

(** As long as [p + n] does not pass the terminator of [p], the cells
    behind it do not matter. *)
Lemma advance_within (n : nat) (p : string) (behind : list ascii) :
  n <= length p -> advance n p behind = drop n p.
Proof.
  intros H. unfold advance.
  destruct (n <=? length p)%nat eqn:E; [reflexivity|].
  apply Nat.leb_gt in E. lia.
Qed.

(** One step behind the terminator the read starts at the first of the
    cells behind it. *)
Lemma advance_behind (p : string) (behind : list ascii) :
  advance (S (S (length p))) p behind = c_string (skipn 1 behind) /\
  advance (S (length p)) p behind = c_string behind.
Proof.
  unfold advance.
  destruct (S (S (length p)) <=? length p)%nat eqn:E1;
    [apply Nat.leb_le in E1; lia|].
  destruct (S (length p) <=? length p)%nat eqn:E2;
    [apply Nat.leb_le in E2; lia|].
  replace (S (S (length p)) - S (length p)) with 1 by lia.
  rewrite Nat.sub_diag. split; reflexivity.
Qed.

Lemma length_list_ascii (line : string) :
  List.length (list_ascii_of_string line) = length line.
Proof. induction line as [|c line IH]; simpl; [reflexivity | now rewrite IH]. Qed.

(** [fgets] leaves the cells behind the terminator as they were. *)
Lemma behind_store (line : string) (cells : list ascii) :
  skipn (S (length line)) (fgets_store line cells) = behind_line line cells.
Proof.
  unfold fgets_store, behind_line.
  rewrite skipn_app, length_list_ascii.
  rewrite skipn_all2 by (rewrite length_list_ascii; lia).
  replace (S (length line) - length line) with 1 by lia.
  reflexivity.
Qed.

(** On a line as [fgets] delivers it (any newline is its last
    character) the terminating store of the uarch branch lands behind the
    copy: the index is counted from the colon, two characters before the
    start of the copy. *)
Lemma store_behind_copy (p : string) (behind : list ascii) :
  2 <= length p -> length p <= S (strcspn p newline) ->
  store_in_block (advance 2 p behind) (strcspn p newline) = false /\
  store_nul (advance 2 p behind) (strcspn p newline) = advance 2 p behind.
Proof.
  intros H2 Hn. unfold store_nul, store_in_block.
  rewrite (advance_within 2 p behind H2), length_drop.
  destruct (strcspn p newline <=? length p - 2)%nat eqn:E.
  - apply Nat.leb_le in E. lia.
  - split; reflexivity.
Qed.

Lemma concat_cons (x : string) (xs : list string) :
  concat "" (x :: xs) = x ++ concat "" xs.
Proof.
  destruct xs as [|y ys]; simpl.
  - now rewrite app_string_nil_r.
  - reflexivity.
Qed.

Lemma strchr_starts (s : string) (c : ascii) (p : string) :
  strchr s c = Some p -> exists p', p = String c p'.
Proof.
  induction s as [|a s IH]; simpl; [discriminate|].
  destruct (Ascii.eqb a c) eqn:E.
  - intros [= <-]. apply Ascii.eqb_eq in E. subst. now exists s.
  - exact IH.
Qed.

(** [tolower] puts every capital letter in lower case, and changes no
    other character. *)
Lemma tolower_small_letter (c : ascii) : tolower c = small_letter c.
Proof. destruct c as [[] [] [] [] [] [] [] []]; reflexivity. Qed.

(** [parse_satp_mode] never answers [VM_NOTSET]. *)
Lemma parse_satp_mode_set (v : string) : is_notset (parse_satp_mode v) = false.
Proof.
  unfold parse_satp_mode.
  repeat match goal with |- context [if ?b then _ else _] => destruct b end;
    reflexivity.
Qed.

(** Handed the pointer that [strchr] returned, which still points at the
    colon, [parse_satp_mode] matches none of its four names. *)
Lemma parse_satp_mode_at_colon (p' : string) :
  parse_satp_mode (String colon p') = VM_MBARE.
Proof. reflexivity. Qed.

(** ** One line of the pseudo-file *)

Lemma scan_line_found (buf : string) (behind : list ascii) (mode : VM_MODE)
  (r : string) :
  is_notset mode = false -> scan_line buf behind mode (Some r) = (mode, Some r).
Proof.
  intros Hm. unfold scan_line. destruct (strchr buf colon); [|reflexivity].
  now rewrite Hm.
Qed.

(** The mode that a line yields does not depend on the cells behind
    it. *)
Lemma scan_line_mode (buf : string) (behind : list ascii) (mode : VM_MODE)
  (ret : option string) :
  fst (scan_line buf behind mode ret) =
  if is_notset mode
  then (if is_mmu_line buf then mode_of_line buf else VM_NOTSET)
  else mode.
Proof.
  unfold mode_of_line, scan_line, is_mmu_line.
  destruct (strchr buf colon) as [p|]; simpl.
  - destruct mode; simpl; try reflexivity.
    destruct (strncmp_eq buf "mmu"); reflexivity.
  - destruct mode; reflexivity.
Qed.

Lemma scan_line_ret (buf : string) (behind : list ascii) (mode : VM_MODE)
  (ret : option string) :
  snd (scan_line buf behind mode ret) =
  match ret with
  | None => if is_uarch_line buf
            then snd (scan_line buf behind VM_NOTSET None) else None
  | Some _ => ret
  end.
Proof.
  unfold scan_line, is_uarch_line.
  destruct (strchr buf colon) as [p|]; simpl.
  - destruct ret; simpl; [reflexivity|].
    destruct (strncmp_eq buf "uarch"); reflexivity.
  - destruct ret; reflexivity.
Qed.

Lemma mmu_line_sets_mode (buf : string) :
  is_mmu_line buf = true -> is_notset (mode_of_line buf) = false.
Proof.
  unfold is_mmu_line, mode_of_line, scan_line.
  destruct (strchr buf colon) as [p|]; [|discriminate].
  intros ->. simpl. apply parse_satp_mode_set.
Qed.

Lemma uarch_line_sets_ret (buf : string) (behind : list ascii) :
  is_uarch_line buf = true ->
  is_null (snd (scan_line buf behind VM_NOTSET None)) = false.
Proof.
  unfold is_uarch_line, scan_line.
  destruct (strchr buf colon) as [p|]; [|discriminate].
  intros ->. reflexivity.
Qed.

(** Whatever the line, the mode it yields is [VM_NOTSET] (not an mmu
    line) or [VM_MBARE]. *)
Lemma scan_line_mode_bare (buf : string) :
  mode_of_line buf = VM_NOTSET \/ mode_of_line buf = VM_MBARE.
Proof.
  unfold mode_of_line, scan_line.
  destruct (strchr buf colon) as [p|] eqn:E; [|now left].
  simpl. destruct (strncmp_eq buf "mmu"); [|now left].
  right. destruct (strchr_starts _ _ _ E) as [p' ->].
  apply parse_satp_mode_at_colon.
Qed.

(** With a character behind the colon the name that a line yields is a
    matter of the line alone. *)
Lemma name_within (buf : string) (behind : list ascii) :
  reads_within buf = true ->
  snd (scan_line buf behind VM_NOTSET None) = name_of_line buf.
Proof.
  unfold reads_within, name_of_line, scan_line.
  destruct (strchr buf colon) as [p|]; [|reflexivity].
  intros H. apply Nat.leb_le in H. simpl.
  destruct (strncmp_eq buf "uarch"); [|reflexivity].
  now rewrite !(advance_within 2 p _ H).
Qed.

(** ** The whole pseudo-file *)

Lemma scan_all_cons (buf : string) (lines : list string) (cells : list ascii)
  (mode : VM_MODE) (ret : option string) :
  scan_all (buf :: lines) cells mode ret =
  scan_all lines (fgets_store buf cells)
           (fst (scan_line buf (behind_line buf cells) mode ret))
           (snd (scan_line buf (behind_line buf cells) mode ret)).
Proof. reflexivity. Qed.

Lemma scan_all_found (lines : list string) (cells : list ascii)
  (mode : VM_MODE) (ret : option string) :
  both_found (mode, ret) = true -> scan_all lines cells mode ret = (mode, ret).
Proof.
  unfold both_found; simpl. intros H.
  apply andb_true_iff in H as [Hm Hr].
  apply negb_true_iff in Hm. apply negb_true_iff in Hr.
  destruct ret as [r|]; [|discriminate].
  revert cells. induction lines as [|buf lines IH]; intros cells; [reflexivity|].
  rewrite scan_all_cons, scan_line_found by assumption. apply IH.
Qed.

(** What follows a prefix in which both fields were found has no part
    in the results. *)
Lemma scan_all_prefix (pre rest : list string) (cells : list ascii)
  (mode : VM_MODE) (ret : option string) :
  both_found (scan_all pre cells mode ret) = true ->
  scan_all (pre ++ rest) cells mode ret = scan_all pre cells mode ret.
Proof.
  revert cells mode ret. induction pre as [|buf pre IH]; intros cells mode ret H.
  - simpl in *. now apply scan_all_found.
  - simpl app. rewrite !scan_all_cons in *. now apply IH.
Qed.

Lemma scan_all_first (lines : list string) (cells : list ascii)
  (mode : VM_MODE) (ret : option string) :
  scan_all lines cells mode ret =
  (if is_notset mode then first_mmu lines else mode,
   match ret with None => first_uarch cells lines | Some _ => ret end).
Proof.
  revert cells mode ret. induction lines as [|buf lines IH]; intros cells mode ret.
  - unfold first_mmu; simpl. destruct mode, ret; reflexivity.
  - rewrite scan_all_cons, IH, scan_line_mode, scan_line_ret.
    unfold first_mmu; simpl.
    f_equal.
    + destruct (is_notset mode) eqn:Hm; [|now rewrite Hm].
      destruct (is_mmu_line buf) eqn:Hb; [|reflexivity].
      now rewrite (mmu_line_sets_mode _ Hb).
    + destruct ret as [r|]; [reflexivity|].
      destruct (is_uarch_line buf) eqn:Hb; [|reflexivity].
      pose proof (uarch_line_sets_ret _ (behind_line buf cells) Hb) as Hn.
      destruct (snd (scan_line buf (behind_line buf cells) VM_NOTSET None));
        [reflexivity|discriminate].
Qed.

Lemma first_mmu_bare (lines : list string) :
  first_mmu lines = VM_NOTSET \/ first_mmu lines = VM_MBARE.
Proof.
  unfold first_mmu. destruct (find is_mmu_line lines); [|now left].
  apply scan_line_mode_bare.
Qed.

(** A name comes from a line that carries one. *)
Lemma first_uarch_line (cells : list ascii) (lines : list string) :
  match find is_uarch_line lines with
  | Some buf => exists behind,
      first_uarch cells lines = snd (scan_line buf behind VM_NOTSET None)
  | None => first_uarch cells lines = None
  end.
Proof.
  revert cells. induction lines as [|buf lines IH]; intros cells; [reflexivity|].
  simpl. destruct (is_uarch_line buf).
  - now exists (behind_line buf cells).
  - apply IH.
Qed.

(** When no colon ends a line, the name is that of the first line that
    carries one, whatever the cells held. *)
Lemma first_uarch_within (cells : list ascii) (lines : list string) :
  forallb reads_within lines = true ->
  first_uarch cells lines =
  match find is_uarch_line lines with
  | Some buf => name_of_line buf
  | None => None
  end.
Proof.
  revert cells. induction lines as [|buf lines IH]; intros cells H; [reflexivity|].
  simpl in *. apply andb_true_iff in H as [Hb Hl].
  destruct (is_uarch_line buf).
  - now apply name_within.
  - now apply IH.
Qed.

(** ** The scanning loop *)

Lemma lines_read_app (a b : list syscall) :
  lines_read (a ++ b) = (lines_read a ++ lines_read b)%list.
Proof.
  induction a as [|c a IH]; [reflexivity|].
  destruct c as [ok| |ok|[l|]|]; simpl; rewrite IH; reflexivity.
Qed.

Lemma both_found_step (mode : VM_MODE) (ret : option string) :
  is_notset mode || is_null ret = negb (both_found (mode, ret)).
Proof. unfold both_found; simpl. now destruct (is_notset mode), (is_null ret). Qed.

Section Scan.

Context {Flags : Type}.

Lemma run_bind {A B} (m : VM (Flags := Flags) A) (k : A -> VM B) (s : State Flags) :
  bind m k s = k (fst (m s)) (snd (m s)).
Proof. unfold bind. now destruct (m s). Qed.

(** One turn of the loop that examines its line. *)
Lemma scan_step (buf : string) (f : list string) (cells : list ascii)
  (mode : VM_MODE) (ret : option string) (s : State Flags) :
  both_found (mode, ret) = false ->
  scan (buf :: f) cells mode ret s =
  scan f (fgets_store buf cells)
       (fst (scan_line buf (behind_line buf cells) mode ret))
       (snd (scan_line buf (behind_line buf cells) mode ret))
       (mkState (registry s) (_features s) (_features_string s) (flags s)
                (syscalls s ++ [sys_fgets (Some buf)])).
Proof.
  intros Hb. cbn [scan]. rewrite run_bind. cbn [trace fst snd].
  rewrite both_found_step, Hb, behind_store. cbn [negb].
  now destruct (scan_line buf (behind_line buf cells) mode ret).
Qed.

(** One turn of the loop entered with both fields found. *)
Lemma scan_leave (buf : string) (f : list string) (cells : list ascii)
  (mode : VM_MODE) (ret : option string) (s : State Flags) :
  both_found (mode, ret) = true ->
  scan (buf :: f) cells mode ret s =
  ((mode, ret),
   mkState (registry s) (_features s) (_features_string s) (flags s)
           (syscalls s ++ [sys_fgets (Some buf)])).
Proof.
  intros Hb. cbn [scan]. rewrite run_bind. cbn [trace fst snd].
  rewrite both_found_step, Hb. reflexivity.
Qed.

Lemma scan_result (f : list string) (cells : list ascii) (mode : VM_MODE)
  (ret : option string) (s : State Flags) :
  eval (scan f cells mode ret) s = scan_all f cells mode ret.
Proof.
  revert cells mode ret s. induction f as [|buf f IH]; intros cells mode ret s.
  - reflexivity.
  - unfold eval in *.
    destruct (both_found (mode, ret)) eqn:Hb.
    + rewrite (scan_leave _ _ _ _ _ _ Hb). cbn [fst].
      now rewrite scan_all_found.
    + rewrite (scan_step _ _ _ _ _ _ Hb), scan_all_cons. apply IH.
Qed.

(** The loop touches nothing of [VM_Version]. *)
Lemma scan_frame (f : list string) (cells : list ascii) (mode : VM_MODE)
  (ret : option string) (s : State Flags) :
  let s' := exec (scan f cells mode ret) s in
  registry s' = registry s /\ _features s' = _features s /\
  _features_string s' = _features_string s /\ flags s' = flags s.
Proof.
  revert cells mode ret s. induction f as [|buf f IH]; intros cells mode ret s.
  - unfold exec. simpl. auto.
  - unfold exec in *. cbv zeta.
    destruct (both_found (mode, ret)) eqn:Hb.
    + rewrite (scan_leave _ _ _ _ _ _ Hb). simpl. auto.
    + rewrite (scan_step _ _ _ _ _ _ Hb).
      match goal with
      | |- context [scan f ?c ?m ?r ?st] => specialize (IH c m r st)
      end.
      simpl in IH. exact IH.
Qed.

(** Entered with both fields found, the loop fetches one line, if there
    is one, and leaves. *)
Lemma scan_fetch_found (f : list string) (cells : list ascii) (mode : VM_MODE)
  (ret : option string) (s : State Flags) :
  both_found (mode, ret) = true ->
  lines_read (syscalls (exec (scan f cells mode ret) s)) =
  (lines_read (syscalls s) ++ firstn 1 f)%list.
Proof.
  intros Hb. unfold exec. destruct f as [|buf f].
  - simpl. unfold bind, trace; simpl. rewrite lines_read_app. reflexivity.
  - rewrite (scan_leave _ _ _ _ _ _ Hb). simpl.
    rewrite lines_read_app. reflexivity.
Qed.

Lemma scan_fetch (pre rest : list string) (cells : list ascii) (mode : VM_MODE)
  (ret : option string) (s : State Flags) :
  both_found (scan_all pre cells mode ret) = true ->
  both_found (scan_all (removelast pre) cells mode ret) = false ->
  lines_read (syscalls (exec (scan (pre ++ rest) cells mode ret) s)) =
  (lines_read (syscalls s) ++ pre ++ firstn 1 rest)%list.
Proof.
  revert cells mode ret s.
  induction pre as [|buf pre IH]; intros cells mode ret s Hyes Hno.
  - simpl in *. congruence.
  - assert (Hstart : both_found (mode, ret) = false).
    { destruct (both_found (mode, ret)) eqn:E; [|reflexivity].
      rewrite (scan_all_found _ _ _ _ E) in Hno. congruence. }
    unfold exec in *. simpl app.
    rewrite (scan_step _ _ _ _ _ _ Hstart).
    rewrite scan_all_cons in Hyes.
    destruct pre as [|buf' pre'].
    + simpl in Hyes. simpl app.
      match goal with
      | |- context [scan rest ?c ?m ?r ?st] =>
          pose proof (scan_fetch_found rest c m r st Hyes) as H
      end.
      unfold exec in H. rewrite H. simpl. rewrite lines_read_app. simpl.
      now rewrite <- app_assoc.
    + change (removelast (buf :: buf' :: pre'))
        with (buf :: removelast (buf' :: pre')) in Hno.
      rewrite scan_all_cons in Hno.
      rewrite (IH _ _ _ _ Hyes Hno). simpl. rewrite lines_read_app. simpl.
      now rewrite <- app_assoc.
Qed.

End Scan.

(** Runs the monadic binds of the goal one after the other. *)
Ltac run_binds := repeat (rewrite run_bind; simpl).

Lemma exec_bind {Flags A B} (m : VM (Flags := Flags) A) (k : A -> VM B)
  (s : State Flags) :
  exec (bind m k) s = exec (k (eval m s)) (exec m s).
Proof. unfold exec, eval. now rewrite run_bind. Qed.

(** ** Feature bits *)

Lemma nth_bit_land (n a : Z) :
  (0 <= n < 64)%Z ->
  (Z.land (nth_bit n) a =? 0)%Z = negb (Z.testbit a n).
Proof.
  intros Hn. unfold nth_bit.
  destruct (64 <=? n)%Z eqn:E; [apply Z.leb_le in E; lia|].
  rewrite Z.shiftl_1_l.
  assert (H : Z.land (2 ^ n) a = if Z.testbit a n then (2 ^ n)%Z else 0%Z).
  { apply Z.bits_inj'. intros k Hk.
    rewrite Z.land_spec, Z.pow2_bits_eqb by lia.
    destruct (Z.eqb_spec n k) as [->|Hne]; simpl.
    - destruct (Z.testbit a k); [|now rewrite Z.bits_0].
      rewrite Z.pow2_bits_eqb by lia. symmetry. apply Z.eqb_refl.
    - destruct (Z.testbit a n); [|now rewrite Z.bits_0].
      rewrite Z.pow2_bits_eqb by lia. symmetry. now apply Z.eqb_neq. }
  rewrite H. destruct (Z.testbit a n); simpl; [|reflexivity].
  apply Z.eqb_neq. pose proof (Z.pow_pos_nonneg 2 n). lia.
Qed.

Lemma jdk_bits_follow_hwcap : bits_follow_hwcap jdk_declarations.
Proof. repeat split. Qed.

(** ** The registry *)

Lemma upd_same (r : Registry) (f : feature) (v : RVFeatureValue) :
  upd r f v f = v.
Proof. unfold upd. destruct (feature_eq_dec f f); congruence. Qed.

Lemma upd_other (r : Registry) (f g : feature) (v : RVFeatureValue) :
  g <> f -> upd r f v g = r g.
Proof. unfold upd. destruct (feature_eq_dec g f); congruence. Qed.

Lemma feature_eqb_eq (f g : feature) : feature_eqb f g = true <-> f = g.
Proof. unfold feature_eqb. destruct (feature_eq_dec f g); split; congruence. Qed.

Lemma existsb_feature (f : feature) (l : list feature) :
  existsb (feature_eqb f) l = true <-> In f l.
Proof.
  rewrite existsb_exists. split.
  - intros [g [Hin Heq]]. apply feature_eqb_eq in Heq. now subst.
  - intros Hin. exists f. split; [assumption | now apply feature_eqb_eq].
Qed.

Section Detect.

Context {Flags : Type}.
Variable decl : Declarations Flags.
Variable os : Platform.

(** *** The capability bitmask *)

Lemma os_aux_loop_registry (l : list feature) (auxv : Z) (s : State Flags)
  (f : feature) :
  registry (exec (os_aux_loop decl l auxv) s) f =
  if existsb (feature_eqb f) l && negb (Z.land (feature_bit decl f) auxv =? 0)%Z
  then mkValue true (enable_default decl)
  else registry s f.
Proof.
  revert s. induction l as [|g l IH]; intros s; [reflexivity|].
  unfold exec in *. simpl. unfold bind at 1.
  destruct (negb (Z.land (feature_bit decl g) auxv =? 0)%Z) eqn:Hg; simpl;
    rewrite IH; simpl.
  - unfold feature_eqb at 2. destruct (feature_eq_dec f g) as [->|Hne]; simpl.
    + rewrite Hg, upd_same. now destruct (existsb _ l).
    + rewrite (upd_other _ _ _ _ Hne). reflexivity.
  - unfold feature_eqb at 2. destruct (feature_eq_dec f g) as [->|Hne]; simpl.
    + rewrite Hg, andb_false_r. reflexivity.
    + reflexivity.
Qed.

Lemma os_aux_loop_frame (l : list feature) (auxv : Z) (s : State Flags) :
  let s' := exec (os_aux_loop decl l auxv) s in
  _features s' = _features s /\ _features_string s' = _features_string s /\
  flags s' = flags s /\ syscalls s' = syscalls s.
Proof.
  revert s. induction l as [|g l IH]; intros s; [unfold exec; simpl; auto|].
  unfold exec in *. simpl. unfold bind.
  destruct (negb (Z.land (feature_bit decl g) auxv =? 0)%Z); simpl; [|apply IH].
  apply (IH (mkState (upd (registry s) g (mkValue true (enable_default decl)))
                     (_features s) (_features_string s) (flags s) (syscalls s))).
Qed.

Lemma os_aux_features_registry (s : State Flags) (f : feature) :
  registry (exec (os_aux_features decl os) s) f =
  if existsb (feature_eqb f) (_feature_list decl) &&
     negb (Z.land (feature_bit decl f) (AT_HWCAP os) =? 0)%Z
  then mkValue true (enable_default decl)
  else registry s f.
Proof.
  unfold os_aux_features, getauxval_AT_HWCAP, exec, bind, trace, pure. simpl.
  exact (os_aux_loop_registry (_feature_list decl) (AT_HWCAP os)
           (mkState (registry s) (_features s) (_features_string s) (flags s)
                    (syscalls s ++ [sys_getauxval])) f).
Qed.

Lemma os_aux_features_syscalls (s : State Flags) :
  syscalls (exec (os_aux_features decl os) s) = (syscalls s ++ [sys_getauxval])%list.
Proof.
  unfold os_aux_features, getauxval_AT_HWCAP, exec, bind, trace, pure. simpl.
  exact (proj2 (proj2 (proj2 (os_aux_loop_frame (_feature_list decl) (AT_HWCAP os)
           (mkState (registry s) (_features s) (_features_string s) (flags s)
                    (syscalls s ++ [sys_getauxval])))))).
Qed.

(** *** The probe, or else the bitmask *)

Lemma isa_sources_probed (populate : Registry -> Registry) (s : State Flags) :
  hwprobe os = Some populate ->
  registry (exec (isa_sources decl os) s) = populate (registry s) /\
  syscalls (exec (isa_sources decl os) s) = (syscalls s ++ [sys_hwprobe true])%list.
Proof.
  intros H. unfold isa_sources, probe_features, exec, bind. rewrite H. simpl. auto.
Qed.

Lemma isa_sources_fallback (s : State Flags) :
  hwprobe os = None ->
  (forall f, registry (exec (isa_sources decl os) s) f =
             registry (exec (os_aux_features decl os) s) f) /\
  syscalls (exec (isa_sources decl os) s) =
  (syscalls s ++ [sys_hwprobe false; sys_getauxval])%list.
Proof.
  intros H. unfold isa_sources, probe_features, exec, bind. rewrite H.
  unfold trace, pure. simpl. split.
  - intros f.
    pose proof (os_aux_features_registry
      (mkState (registry s) (_features s) (_features_string s) (flags s)
               (syscalls s ++ [sys_hwprobe false])) f) as H1.
    pose proof (os_aux_features_registry s f) as H2.
    unfold exec in H1, H2. rewrite H1, H2. reflexivity.
  - pose proof (os_aux_features_syscalls
      (mkState (registry s) (_features s) (_features_string s) (flags s)
               (syscalls s ++ [sys_hwprobe false]))) as H1.
    unfold exec in H1. rewrite H1. simpl. now rewrite <- app_assoc.
Qed.

(** *** The pseudo-file *)

Lemma scan_syscalls (f : list string) (cells : list ascii) (mode : VM_MODE)
  (ret : option string) (s : State Flags) :
  exists calls,
    syscalls (exec (scan f cells mode ret) s) = (syscalls s ++ calls)%list /\
    ~ In sys_getauxval calls.
Proof.
  revert cells mode ret s. induction f as [|buf f IH]; intros cells mode ret s.
  - exists [sys_fgets None]. split; [reflexivity|].
    simpl. intros [H|[]]. discriminate.
  - unfold exec in *.
    destruct (both_found (mode, ret)) eqn:Hb.
    + rewrite (scan_leave _ _ _ _ _ _ Hb).
      exists [sys_fgets (Some buf)]. split; [reflexivity|].
      simpl. intros [H|[]]. discriminate.
    + rewrite (scan_step _ _ _ _ _ _ Hb).
      match goal with
      | |- context [scan f ?c ?m ?r ?st] =>
          destruct (IH c m r st) as [calls [Hc Hn]]
      end.
      exists (sys_fgets (Some buf) :: calls). split.
      * rewrite Hc. simpl. now rewrite <- app_assoc.
      * simpl. intros [H|H]; [discriminate | exact (Hn H)].
Qed.

Lemma os_uarch_closed (s : State Flags) :
  proc_cpuinfo os = None ->
  os_uarch_additional_features decl os s =
  (None, mkState (registry s) (_features s) (_features_string s) (flags s)
                 (syscalls s ++ [sys_fopen false])).
Proof.
  intros H. unfold os_uarch_additional_features, fopen_proc_cpuinfo.
  rewrite H. reflexivity.
Qed.

(** The mode that the function records for the lines it was given. *)
Lemma os_uarch_open (lines : list string) (s : State Flags) :
  proc_cpuinfo os = Some lines ->
  let mode := first_mmu lines in
  eval (os_uarch_additional_features decl os) s =
    first_uarch (buf_on_entry os) lines /\
  registry (exec (os_uarch_additional_features decl os) s) =
  upd (registry s) satp_mode
      (mkValue true (VM_MODE_value decl (if is_notset mode then VM_MBARE else mode))).
Proof.
  intros H. unfold os_uarch_additional_features, fopen_proc_cpuinfo, eval, exec.
  rewrite H. run_binds.
  set (s0 := mkState (registry s) (_features s) (_features_string s) (flags s)
                     (syscalls s ++ [sys_fopen true])).
  pose proof (scan_result lines (buf_on_entry os) VM_NOTSET None s0) as Hr.
  pose proof (scan_frame lines (buf_on_entry os) VM_NOTSET None s0) as [Hreg _].
  unfold eval in Hr. unfold exec in Hreg. simpl in Hreg.
  rewrite Hr, Hreg, scan_all_first. simpl. split; reflexivity.
Qed.

Lemma os_uarch_syscalls (s : State Flags) :
  exists calls,
    syscalls (exec (os_uarch_additional_features decl os) s) =
    (syscalls s ++ calls)%list /\
    ~ In sys_getauxval calls.
Proof.
  destruct (proc_cpuinfo os) as [lines|] eqn:H.
  - unfold os_uarch_additional_features, fopen_proc_cpuinfo, exec.
    rewrite H. run_binds.
    set (s0 := mkState (registry s) (_features s) (_features_string s) (flags s)
                       (syscalls s ++ [sys_fopen true])).
    destruct (scan_syscalls lines (buf_on_entry os) VM_NOTSET None s0)
      as [calls [Hc Hn]].
    unfold exec in Hc. rewrite Hc. simpl.
    exists (sys_fopen true :: calls ++ [sys_fclose])%list. split.
    + rewrite <- !app_assoc. reflexivity.
    + simpl. intros [E|E]; [discriminate|].
      apply in_app_or in E as [E|[E|[]]]; [exact (Hn E) | discriminate].
  - unfold exec. rewrite (os_uarch_closed s H). exists [sys_fopen false].
    split; [reflexivity|]. simpl. intros [E|[]]. discriminate.
Qed.

(** Whatever the pseudo-file says, the mode recorded is [VM_MBARE]. *)
Lemma os_uarch_mode_bare (lines : list string) (s : State Flags) :
  proc_cpuinfo os = Some lines ->
  registry (exec (os_uarch_additional_features decl os) s) satp_mode =
  mkValue true (VM_MODE_value decl VM_MBARE).
Proof.
  intros H. destruct (os_uarch_open lines s H) as [_ Hreg].
  rewrite Hreg, upd_same.
  destruct (first_mmu_bare lines) as [-> | ->]; reflexivity.
Qed.

(** *** The vendor overlay *)

#[local] Arguments rivos_features : simpl never.

Lemma enable_feature_enabled (g : feature) (v : Z) (s : State Flags)
  (f : feature) :
  _enabled (registry (exec (enable_feature g v) s) f) =
  feature_eqb f g || _enabled (registry s f).
Proof.
  unfold exec, enable_feature, upd, feature_eqb. simpl.
  now destruct (feature_eq_dec f g).
Qed.

Lemma rivos_features_enabled (s : State Flags) (f : feature) :
  _enabled (registry (exec (rivos_features decl) s) f) =
  _enabled (registry s f) || existsb (feature_eqb f) rivos_bundle.
Proof.
  unfold rivos_features.
  repeat (rewrite exec_bind; cbv beta).
  rewrite !enable_feature_enabled.
  destruct f; destruct (_enabled (registry s _)); reflexivity.
Qed.

Lemma registry_only_bind {A B} (m : VM (Flags := Flags) A) (k : A -> VM B) :
  registry_only m -> (forall a, registry_only (k a)) -> registry_only (bind m k).
Proof.
  intros Hm Hk s. simpl. rewrite exec_bind.
  destruct (Hk (eval m s) (exec m s)) as (-> & -> & -> & ->).
  apply Hm.
Qed.

Lemma registry_only_enable (g : feature) (v : Z) :
  registry_only (Flags := Flags) (enable_feature g v).
Proof. intros s. unfold exec. simpl. auto. Qed.

Lemma rivos_features_frame : registry_only (rivos_features decl).
Proof.
  unfold rivos_features.
  repeat (apply registry_only_bind; [apply registry_only_enable | intros _]).
  apply registry_only_enable.
Qed.

Lemma vendor_features_enabled (s : State Flags) (f : feature) :
  _enabled (registry (exec (vendor_features decl) s) f) =
  _enabled (registry s f) ||
  (_enabled (registry s mvendorid) &&
   (_value (registry s mvendorid) =? RIVOS_MVENDORID)%Z &&
   existsb (feature_eqb f) rivos_bundle).
Proof.
  unfold vendor_features. rewrite exec_bind.
  change (eval (enabled mvendorid) s) with (_enabled (registry s mvendorid)).
  change (exec (enabled mvendorid) s) with s.
  destruct (_enabled (registry s mvendorid)); cbv beta iota delta [negb].
  - rewrite exec_bind.
    change (eval (value mvendorid) s) with (_value (registry s mvendorid)).
    change (exec (value mvendorid) s) with s.
    destruct (_value (registry s mvendorid) =? RIVOS_MVENDORID)%Z.
    + apply rivos_features_enabled.
    + change (exec (pure tt) s) with s. now rewrite orb_false_r.
  - change (exec (pure tt) s) with s. now rewrite orb_false_r.
Qed.

Lemma registry_only_read {A} (m : VM (Flags := Flags) A) :
  (forall s, exec m s = s) -> registry_only m.
Proof. intros H s. simpl. rewrite H. auto. Qed.

Lemma vendor_features_frame : registry_only (vendor_features decl).
Proof.
  unfold vendor_features.
  apply registry_only_bind; [now apply registry_only_read|].
  intros [|]; cbv beta iota delta [negb].
  - apply registry_only_bind; [now apply registry_only_read|].
    intros v. destruct (v =? RIVOS_MVENDORID)%Z.
    + apply rivos_features_frame.
    + now apply registry_only_read.
  - now apply registry_only_read.
Qed.

(** With the vendor id not enabled the overlay is the identity. *)
Lemma vendor_features_skipped (s : State Flags) :
  _enabled (registry s mvendorid) = false ->
  vendor_features decl s = (tt, s).
Proof.
  intros H. unfold vendor_features, enabled. rewrite run_bind. simpl.
  now rewrite H.
Qed.

(** *** The features string *)

Lemma features_loop_result (l : list feature) (buf : string) (s : State Flags)
  (r : Registry) :
  registry s = r ->
  eval (features_loop decl l buf) s =
  fold_left (append_feature decl) (filter (fun f => _enabled (r f)) l) buf.
Proof.
  revert buf s. induction l as [|f l IH]; intros buf s Hr; [reflexivity|].
  unfold eval in *. simpl. unfold enabled. run_binds. rewrite Hr.
  destruct (_enabled (r f)); simpl.
  - run_binds.
    destruct (negb (feature_bit decl f =? 0)%Z); simpl; apply IH; exact Hr.
  - apply IH; exact Hr.
Qed.

Lemma features_loop_frame (l : list feature) (buf : string) (s : State Flags) :
  let s' := exec (features_loop decl l buf) s in
  registry s' = registry s /\ _features_string s' = _features_string s /\
  syscalls s' = syscalls s.
Proof.
  revert buf s. induction l as [|f l IH]; intros buf s; [unfold exec; simpl; auto|].
  unfold exec in *. simpl. unfold enabled. run_binds.
  destruct (_enabled (registry s f)); simpl; [|apply IH].
  run_binds.
  destruct (negb (feature_bit decl f =? 0)%Z); simpl.
  - exact (IH (append_feature decl buf f)
              (mkState (registry s) (Z.lor (_features s) (feature_bit decl f))
                       (_features_string s) (update_flag decl f (flags s))
                       (syscalls s))).
  - exact (IH (append_feature decl buf f)
              (mkState (registry s) (_features s)
                       (_features_string s) (update_flag decl f (flags s))
                       (syscalls s))).
Qed.


Lemma append_feature_hidden (buf : string) (f : feature) :
  feature_string decl f = false -> append_feature decl buf f = buf.
Proof. unfold append_feature. now intros ->. Qed.


Lemma filter_andb {A} (p q : A -> bool) (l : list A) :
  filter (fun x => p x && q x) l = filter q (filter p l).
Proof.
  induction l as [|x l IH]; [reflexivity|]. simpl.
  destruct (p x); simpl; [destruct (q x)|]; now rewrite IH.
Qed.


(** *** The whole pass, step by step *)

Lemma setup_run (s : State Flags) :
  let s1 := exec (isa_sources decl os) s in
  let uarch := eval (os_uarch_additional_features decl os) s1 in
  let s2 := exec (os_uarch_additional_features decl os) s1 in
  let s3 := exec (vendor_features decl) s2 in
  let s' := exec (setup_cpu_available_features decl os) s in
  registry s' = registry s3 /\
  _features_string s' =
    Some (fold_left (append_feature decl)
            (filter (fun f => _enabled (registry s3 f)) (_feature_list decl))
            (uarch_prefix uarch ++ "rv64")) /\
  syscalls s' = syscalls s2.
Proof.
  unfold setup_cpu_available_features, isa_sources, exec, eval,
    set_features_string.
  run_binds.
  set (s1 := (if negb (fst (probe_features os s))
              then os_aux_features decl os else pure tt)
             (snd (probe_features os s))).
  set (s2 := os_uarch_additional_features decl os (snd s1)).
  set (s3 := vendor_features decl (snd s2)).
  set (buf := uarch_prefix (fst s2) ++ "rv64").
  pose proof (features_loop_result (_feature_list decl) buf (snd s3)
                (registry (snd s3)) eq_refl) as Hres.
  pose proof (features_loop_frame (_feature_list decl) buf (snd s3))
    as [Hreg [_ Hsys]].
  unfold eval in Hres. unfold exec in Hreg, Hsys. simpl in Hreg, Hsys.
  rewrite Hres, Hreg, Hsys.
  pose proof (vendor_features_frame (snd s2)) as [_ [_ [_ Hv]]].
  simpl in Hv.
  unfold exec in Hv. fold s3 in Hv. rewrite Hv.
  split; [|split]; reflexivity.
Qed.

Lemma only_enables_bind {A B} (m : VM (Flags := Flags) A) (k : A -> VM B) :
  only_enables m -> (forall a, only_enables (k a)) -> only_enables (bind m k).
Proof.
  intros Hm Hk s g. rewrite exec_bind.
  destruct (Hk (eval m s) (exec m s) g) as [H|H]; [now left|].
  rewrite H. apply Hm.
Qed.

Lemma only_enables_enable (f : feature) (v : Z) :
  only_enables (Flags := Flags) (enable_feature f v).
Proof.
  intros s g. unfold exec, enable_feature, upd. simpl.
  destruct (feature_eq_dec g f); [now left | now right].
Qed.

Lemma only_enables_read {A} (m : VM (Flags := Flags) A) :
  (forall s, exec m s = s) -> only_enables m.
Proof. intros H s g. rewrite H. now right. Qed.

Lemma rivos_features_only_enables : only_enables (rivos_features decl).
Proof.
  unfold rivos_features.
  repeat (apply only_enables_bind; [apply only_enables_enable | intros _]).
  apply only_enables_enable.
Qed.

Lemma vendor_features_only_enables : only_enables (vendor_features decl).
Proof.
  unfold vendor_features.
  apply only_enables_bind; [now apply only_enables_read|].
  intros [|]; cbv beta iota delta [negb].
  - apply only_enables_bind; [now apply only_enables_read|].
    intros v. destruct (v =? RIVOS_MVENDORID)%Z.
    + apply rivos_features_only_enables.
    + now apply only_enables_read.
  - now apply only_enables_read.
Qed.

(** *** The canonical string of the whole pass *)



(** With the probe failing, the pseudo-file closed and no vendor id
    after the bitmask, the pass ends with the registry that
    [os_aux_features] leaves. *)
Lemma setup_bitmask_only (s : State Flags) :
  hwprobe os = None -> proc_cpuinfo os = None ->
  _enabled (registry (exec (os_aux_features decl os) s) mvendorid) = false ->
  let s' := exec (setup_cpu_available_features decl os) s in
  (forall f, registry s' f = registry (exec (os_aux_features decl os) s) f) /\
  _features_string s' =
    Some (fold_left (append_feature decl)
            (filter (fun f => _enabled (registry (exec (os_aux_features decl os) s) f))
                    (_feature_list decl))
            "rv64").
Proof.
  intros Hprobe Hfile Hvendor.
  destruct (setup_run s) as [Hreg [Hstr _]].
  destruct (isa_sources_fallback s Hprobe) as [Haux _].
  set (s1 := exec (isa_sources decl os) s) in *.
  pose proof (os_uarch_closed s1 Hfile) as Hclosed.
  unfold eval, exec in Hreg, Hstr. rewrite Hclosed in Hreg, Hstr.
  simpl fst in Hstr. simpl snd in Hreg, Hstr.
  set (s2 := mkState (registry s1) (_features s1) (_features_string s1)
                     (flags s1) (syscalls s1 ++ [sys_fopen false])) in *.
  assert (Hskip : vendor_features decl s2 = (tt, s2)).
  { apply vendor_features_skipped. simpl. now rewrite Haux. }
  rewrite Hskip in Hreg, Hstr. simpl in Hreg, Hstr.
  simpl. unfold exec at 1 3. rewrite Hreg, Hstr. split; [exact Haux|].
  do 2 f_equal. apply filter_ext. intros f. now rewrite Haux.
Qed.

(** *** The capacity of [buf]

    [strcat] is modelled as concatenation, which is what it does as long
    as the 1024 bytes of [buf] are not exceeded. The prefix takes at most
    511 characters and the base tag 4, so a registry whose tokens take
    fewer than 509 never fills the buffer. *)

Lemma append_feature_length (buf : string) (f : feature) :
  length (append_feature decl buf f) <= length buf + S (length (pretty decl f)).
Proof.
  unfold append_feature. destruct (feature_string decl f); [|lia].
  destruct (length (pretty decl f) =? 1)%nat.
  - rewrite length_app_string. lia.
  - destruct (pretty decl f) as [|c rest]; rewrite !length_app_string; simpl; lia.
Qed.

Lemma fold_tokens_length (fs : list feature) (buf : string) :
  length (fold_left (append_feature decl) fs buf) <= length buf + token_room decl fs.
Proof.
  revert buf. induction fs as [|f fs IH]; intros buf; simpl; [lia|].
  specialize (IH (append_feature decl buf f)).
  pose proof (append_feature_length buf f). lia.
Qed.

Lemma token_room_filter (p : feature -> bool) (l : list feature) :
  token_room decl (filter p l) <= token_room decl l.
Proof.
  induction l as [|f l IH]; simpl; [lia|].
  destruct (p f); simpl; lia.
Qed.

Lemma uarch_prefix_length (uarch : option string) :
  length (uarch_prefix uarch) <= 511.
Proof.
  unfold uarch_prefix, snprintf_comma. destruct uarch as [u|]; simpl; [|lia].
  destruct (negb (strcmp_eq u "")); [|simpl; lia].
  apply (length_substring_le 0 511).
Qed.

Lemma features_string_fits (s : State Flags) :
  token_room decl (_feature_list decl) < 509 ->
  exists buf,
    _features_string (exec (setup_cpu_available_features decl os) s) = Some buf /\
    length buf < 1024.
Proof.
  intros Hroom. destruct (setup_run s) as [_ [Hstr _]]. simpl in Hstr.
  eexists. split; [exact Hstr|].
  match goal with
  | |- length (fold_left _ (filter ?p ?l) (uarch_prefix ?u ++ _)) < _ =>
      pose proof (fold_tokens_length (filter p l) (uarch_prefix u ++ "rv64"));
      pose proof (token_room_filter p l);
      pose proof (uarch_prefix_length u)
  end.
  rewrite length_app_string in *. simpl length in *. lia.
Qed.

End Detect.

Lemma jdk_token_room : token_room jdk_declarations jdk_feature_list < 509.
Proof. vm_compute. lia. Qed.

Lemma jdk_features_string_fits (os : Platform) (s : State (list feature)) :
  exists buf,
    _features_string (exec (setup_cpu_available_features jdk_declarations os) s)
      = Some buf /\
    length buf < 1024.
Proof. apply features_string_fits. exact jdk_token_room. Qed.

Lemma filter_none {A} (p : A -> bool) (l : list A) :
  (forall x, In x l -> p x = false) -> filter p l = [].
Proof.
  induction l as [|x l IH]; intros H; [reflexivity|]. simpl.
  rewrite (H x (or_introl eq_refl)). apply IH. intros y Hy. apply H. now right.
Qed.

Lemma mmu_line_not_uarch (buf : string) :
  is_mmu_line buf = true -> is_uarch_line buf = false.
Proof.
  unfold is_mmu_line, is_uarch_line, strncmp_eq.
  destruct (strchr buf colon); [|discriminate].
  destruct buf as [|c buf]; [discriminate|]. cbn [prefix].
  destruct (ascii_dec "m" c) as [<-|]; [|intros H; discriminate H].
  intros _. destruct (ascii_dec "u" "m") as [E|]; [discriminate E | reflexivity].
Qed.

Lemma uarch_line_not_mmu (buf : string) :
  is_uarch_line buf = true -> is_mmu_line buf = false.
Proof.
  intros H. destruct (is_mmu_line buf) eqn:E; [|reflexivity].
  apply mmu_line_not_uarch in E. congruence.
Qed.

(** ** The detection pass with no source available *)

(** C3, as the code has it. With the hardware probe failing, no bit in
    the capability bitmask, the pseudo-file not to be opened and every
    feature disabled beforehand (so that no vendor id is known),
    the pass yields the features string "rv64" and leaves every feature
    disabled. That includes the translation mode: [satp_mode] is not
    touched, so the mode is not recorded as [VM_MBARE]; the function
    returns before the statement that records a mode. *)
Theorem no_source_available {Flags} (decl : Declarations Flags) (os : Platform)
  (s : State Flags) :
  hwprobe os = None -> AT_HWCAP os = 0%Z -> proc_cpuinfo os = None ->
  (forall f, _enabled (registry s f) = false) ->
  let s' := exec (setup_cpu_available_features decl os) s in
  _features_string s' = Some "rv64" /\
  (forall f, _enabled (registry s' f) = false) /\
  registry s' satp_mode = registry s satp_mode /\
  ~ satp_mode_is decl s' VM_MBARE.
Proof.
  intros Hprobe Hcap Hfile Hoff.
  assert (Haux : forall f,
    registry (exec (os_aux_features decl os) s) f = registry s f).
  { intros f. rewrite os_aux_features_registry, Hcap, Z.land_0_r.
    now rewrite andb_false_r. }
  destruct (setup_bitmask_only decl os s Hprobe Hfile) as [Hreg Hstr].
  { now rewrite Haux. }
  assert (Hall : forall f,
    registry (exec (setup_cpu_available_features decl os) s) f = registry s f).
  { intros f. now rewrite Hreg. }
  simpl. split; [|split; [|split]].
  - rewrite Hstr, filter_none; [reflexivity|].
    intros f _. now rewrite Haux.
  - intros f. now rewrite Hall.
  - apply Hall.
  - unfold satp_mode_is. rewrite Hall, Hoff. intros [H _]. discriminate H.
Qed.

Lemma no_source_available_witness :
  let os := mkPlatform None 0 None [] in
  let s' := exec (setup_cpu_available_features jdk_declarations os) initial_state in
  (hwprobe os = None /\ AT_HWCAP os = 0%Z /\ proc_cpuinfo os = None /\
   forall f, _enabled (registry initial_state f) = false) /\
  _features_string s' = Some "rv64" /\
  (forall f, _enabled (registry s' f) = false) /\
  registry s' satp_mode = registry initial_state satp_mode /\
  ~ satp_mode_is jdk_declarations s' VM_MBARE.
Proof.
  split.
  - repeat split; reflexivity.
  - apply (no_source_available jdk_declarations (mkPlatform None 0 None [])
             initial_state); reflexivity.
Defined.

(** C3 as stated fails: with no source available the translation mode is
    not set to [VM_MBARE]. *)
Lemma no_source_mode_not_bare :
  let os := mkPlatform None 0 None [] in
  let s' := exec (setup_cpu_available_features jdk_declarations os) initial_state in
  ~ (_features_string s' = Some "rv64" /\
     (forall f, In f jdk_feature_list -> jdk_feature_string f = true ->
                _enabled (registry s' f) = false) /\
     satp_mode_is jdk_declarations s' VM_MBARE).
Proof.
  intros os s' [_ [_ [H _]]]. vm_compute in H. discriminate H.
Qed.

(** ** The translation mode *)

(** C4 at the failing input: a pseudo-file whose only line is
    "mmu : sv48", or the same line as the kernel prints it, whatever
    [buf] held before. The pass records [VM_MBARE], not [VM_SV48],
    although [parse_satp_mode] answers [VM_SV48] for the bare name: the
    loop hands it the text from the colon on. *)
Theorem mmu_sv48_recorded_as_bare (stack : list ascii) :
  let run_on line :=
    exec (setup_cpu_available_features jdk_declarations
            (mkPlatform None 0 (Some [line]) stack))
         initial_state in
  parse_satp_mode "sv48" = VM_SV48 /\
  strchr ("mmu : sv48" ++ nl) colon = Some (": sv48" ++ nl) /\
  satp_mode_is jdk_declarations (run_on ("mmu : sv48" ++ nl)) VM_MBARE /\
  ~ satp_mode_is jdk_declarations (run_on ("mmu : sv48" ++ nl)) VM_SV48 /\
  satp_mode_is jdk_declarations (run_on (cpuinfo_line "mmu" "sv48")) VM_MBARE /\
  satp_mode_is jdk_declarations (run_on "mmu : sv48") VM_MBARE.
Proof.
  intros run_on. split; [reflexivity|]. split; [reflexivity|].
  split; [split; reflexivity|]. split.
  - intros [_ H]. vm_compute in H. discriminate H.
  - split; split; reflexivity.
Qed.

(** ** The micro-architecture name *)

(** C9 at the failing input: a pseudo-file whose only line is
    "uarch : sifive-u74", or the same line as the kernel prints it,
    whatever [buf] held before. The name recovered keeps the newline that
    ends the line, because the terminating store uses an index counted
    from the colon and lands behind the copy; the features string starts
    with that name and a comma. *)
Theorem uarch_name_keeps_newline (stack : list ascii) :
  let os := mkPlatform None 0 (Some ["uarch : sifive-u74" ++ nl]) stack in
  let os' := mkPlatform None 0 (Some [cpuinfo_line "uarch" "sifive-u74"]) stack in
  let s' := exec (setup_cpu_available_features jdk_declarations os) initial_state in
  eval (os_uarch_additional_features jdk_declarations os) initial_state =
    Some ("sifive-u74" ++ nl) /\
  eval (os_uarch_additional_features jdk_declarations os') initial_state =
    Some ("sifive-u74" ++ nl) /\
  store_in_block ("sifive-u74" ++ nl) (strcspn (": sifive-u74" ++ nl) newline) = false /\
  _features_string s' = Some ("sifive-u74" ++ nl ++ ",rv64") /\
  _features_string s' <> Some "sifive-u74,rv64".
Proof.
  intros os os' s'. repeat split; try reflexivity.
  intros H. vm_compute in H. discriminate H.
Qed.

(** ** The scanning loop stops *)

(** C7 as stated fails: [fgets] is the first operand of the loop
    condition, so one more line is fetched after the line at which both
    fields were found. Here both are found in the first two lines and
    three lines are read. *)
Lemma scan_reads_one_line_more :
  ~ reads_nothing_past
      ["mmu : sv48" ++ nl; "uarch : sifive-u74" ++ nl; "mmu : sv39" ++ nl]
      [] initial_state.
Proof.
  intros H.
  specialize (H ["mmu : sv48" ++ nl; "uarch : sifive-u74" ++ nl]
                ["mmu : sv39" ++ nl] eq_refl eq_refl).
  vm_compute in H. lia.
Qed.

(** C7, as the code has it. Let [pre] be the shortest prefix of the
    pseudo-file in which both fields are found, whatever [buf] held
    before. The results are those of [pre] alone, whatever follows; the
    loop fetches the lines of [pre] and at most one line more, which it
    does not examine. The mode is taken from the first line that carries
    one, wherever the other field stands and whether or not it is there.
    So is the name, as long as no line ends with its colon: then two
    lines that carry one field each give the same results in either
    order. (A line that ends with its colon takes the name from what
    earlier lines left in [buf]; see [name_from_stale_bytes].) *)
Theorem scan_stops_when_both_found {Flags} (pre rest : list string)
  (cells : list ascii) (s : State Flags) :
  both_found (scan_all pre cells VM_NOTSET None) = true ->
  both_found (scan_all (removelast pre) cells VM_NOTSET None) = false ->
  eval (scan (pre ++ rest) cells VM_NOTSET None) s =
    scan_all pre cells VM_NOTSET None /\
  lines_read (syscalls (exec (scan (pre ++ rest) cells VM_NOTSET None) s)) =
    (lines_read (syscalls s) ++ pre ++ firstn 1 rest)%list /\
  (forall lines,
     fst (eval (scan lines cells VM_NOTSET None) s) = first_mmu lines) /\
  (forall lines, forallb reads_within lines = true ->
     snd (eval (scan lines cells VM_NOTSET None) s) =
     match find is_uarch_line lines with
     | Some buf => name_of_line buf
     | None => None
     end) /\
  (forall a b, is_mmu_line a = true -> is_uarch_line b = true ->
     reads_within b = true ->
     eval (scan [a; b] cells VM_NOTSET None) s =
     eval (scan [b; a] cells VM_NOTSET None) s).
Proof.
  intros Hyes Hno. split; [|split; [|split; [|split]]].
  - rewrite scan_result. now apply scan_all_prefix.
  - now apply scan_fetch.
  - intros lines. rewrite scan_result, scan_all_first. reflexivity.
  - intros lines Hin. rewrite scan_result, scan_all_first. simpl.
    now apply first_uarch_within.
  - intros a b Ha Hb Hin. rewrite !scan_result, !scan_all_first. simpl.
    unfold first_mmu. simpl.
    rewrite Ha, Hb, (mmu_line_not_uarch a Ha), (uarch_line_not_mmu b Hb).
    now rewrite !(name_within b _ Hin).
Qed.

Lemma scan_stops_when_both_found_witness :
  let pre := ["uarch : sifive-u74" ++ nl; "mmu : sv48" ++ nl] in
  let rest := ["mmu : sv39" ++ nl; "uarch : other" ++ nl] in
  (both_found (scan_all pre [] VM_NOTSET None) = true /\
   both_found (scan_all (removelast pre) [] VM_NOTSET None) = false) /\
  eval (scan (pre ++ rest) [] VM_NOTSET None) initial_state =
    scan_all pre [] VM_NOTSET None /\
  lines_read (syscalls (exec (scan (pre ++ rest) [] VM_NOTSET None) initial_state)) =
    (pre ++ firstn 1 rest)%list /\
  eval (scan pre [] VM_NOTSET None) initial_state =
    eval (scan (rev pre) [] VM_NOTSET None) initial_state.
Proof.
  split; [split; reflexivity|].
  destruct (scan_stops_when_both_found
              ["uarch : sifive-u74" ++ nl; "mmu : sv48" ++ nl]
              ["mmu : sv39" ++ nl; "uarch : other" ++ nl]
              [] initial_state eq_refl eq_refl) as (H1 & H2 & _ & _ & H5).
  split; [exact H1|]. split; [exact H2|].
  symmetry.
  exact (H5 ("mmu : sv48" ++ nl) ("uarch : sifive-u74" ++ nl)
            eq_refl eq_refl eq_refl).
Defined.

(** A line that ends with its colon: [p + 2] points behind the
    terminator that [fgets] stored, and the name is the first character
    of what an earlier, longer line left there. After a "processor" line
    as the kernel prints it that is "o"; after "mmu : sv48" it is "v",
    while with the two lines in the other order it is what [buf] held
    when the function was entered. *)
Example name_from_stale_bytes (cells : list ascii) (s : State (list feature)) :
  eval (scan ["processor" ++ tab ++ ": 0" ++ nl; "uarch:"] cells VM_NOTSET None) s =
    (VM_NOTSET, Some "o") /\
  eval (scan ["mmu : sv48" ++ nl; "uarch:"] cells VM_NOTSET None) s =
    (VM_MBARE, Some "v") /\
  eval (scan ["uarch:"; "mmu : sv48" ++ nl] cells VM_NOTSET None) s =
    (VM_MBARE, Some (store_nul (c_string (skipn 7 cells)) 1)) /\
  eval (scan ["mmu : sv48" ++ nl; "uarch:"] [] VM_NOTSET None) s <>
  eval (scan ["uarch:"; "mmu : sv48" ++ nl] [] VM_NOTSET None) s.
Proof.
  rewrite !scan_result. repeat split. discriminate.
Qed.

(** ** The capability bitmask is the fall-back *)

(** C8. In the calls the pass makes, [getauxval(AT_HWCAP)] occurs if
    and only if the hardware probe reports failure. [os_aux_features]
    enables exactly the features of [_feature_list] whose feature bit
    meets the bitmask: a listed feature with bit position [n] that was
    disabled is enabled afterwards if and only if bit [n] of the bitmask
    is set, and a feature whose bit is not in the bitmask, or that has no
    bit, keeps the state it had. *)
Theorem bitmask_is_the_fallback {Flags} (decl : Declarations Flags)
  (os : Platform) (s : State Flags) :
  (exists calls,
     syscalls (exec (setup_cpu_available_features decl os) s) =
     (syscalls s ++ calls)%list /\
     (In sys_getauxval calls <-> hwprobe os = None)) /\
  (forall f,
     _enabled (registry (exec (os_aux_features decl os) s) f) =
     _enabled (registry s f) ||
     (existsb (feature_eqb f) (_feature_list decl) &&
      negb (Z.land (feature_bit decl f) (AT_HWCAP os) =? 0)%Z)) /\
  (forall f n,
     In f (_feature_list decl) -> (0 <= n < 64)%Z ->
     feature_bit decl f = nth_bit n -> _enabled (registry s f) = false ->
     _enabled (registry (exec (os_aux_features decl os) s) f) =
     Z.testbit (AT_HWCAP os) n) /\
  (forall f,
     Z.land (feature_bit decl f) (AT_HWCAP os) = 0%Z ->
     registry (exec (os_aux_features decl os) s) f = registry s f).
Proof.
  assert (Hen : forall f,
     _enabled (registry (exec (os_aux_features decl os) s) f) =
     _enabled (registry s f) ||
     (existsb (feature_eqb f) (_feature_list decl) &&
      negb (Z.land (feature_bit decl f) (AT_HWCAP os) =? 0)%Z)).
  { intros f. rewrite os_aux_features_registry.
    destruct (existsb (feature_eqb f) (_feature_list decl) &&
              negb (Z.land (feature_bit decl f) (AT_HWCAP os) =? 0)%Z); simpl.
    - now rewrite orb_true_r.
    - now rewrite orb_false_r. }
  split; [|split; [exact Hen|split]].
  - destruct (setup_run decl os s) as [_ [_ Hsys]]. simpl in Hsys.
    rewrite Hsys.
    set (s1 := exec (isa_sources decl os) s).
    destruct (os_uarch_syscalls decl os s1) as [calls [Hc Hn]].
    rewrite Hc. subst s1.
    destruct (hwprobe os) as [populate|] eqn:Hp.
    + destruct (isa_sources_probed decl os populate s Hp) as [_ ->].
      exists (sys_hwprobe true :: calls). split.
      * now rewrite <- app_assoc.
      * split; [|discriminate].
        intros [E|E]; [discriminate E | destruct (Hn E)].
    + destruct (isa_sources_fallback decl os s Hp) as [_ ->].
      exists (sys_hwprobe false :: sys_getauxval :: calls). split.
      * now rewrite <- app_assoc.
      * split; [reflexivity|]. intros _. right. now left.
  - intros f n Hin Hn Hbit Hoff.
    rewrite Hen, Hoff, Hbit, (nth_bit_land n _ Hn), negb_involutive.
    apply existsb_feature in Hin. now rewrite Hin.
  - intros f Hf. rewrite os_aux_features_registry, Hf. simpl.
    now rewrite andb_false_r.
Qed.

Lemma bitmask_is_the_fallback_witness :
  let auxv := Z.lor (Z.lor HWCAP_ISA_I HWCAP_ISA_M) HWCAP_ISA_A in
  let os := mkPlatform None auxv None [] in
  let s' := exec (os_aux_features jdk_declarations os) initial_state in
  _enabled (registry s' ext_I) = Z.testbit auxv 8 /\
  _enabled (registry s' ext_C) = Z.testbit auxv 2 /\
  registry s' ext_Zba = registry initial_state ext_Zba /\
  map (fun f => _enabled (registry s' f)) [ext_I; ext_M; ext_A; ext_C; ext_Zba] =
  [true; true; true; false; false].
Proof.
  destruct (bitmask_is_the_fallback jdk_declarations
              (mkPlatform None (Z.lor (Z.lor HWCAP_ISA_I HWCAP_ISA_M) HWCAP_ISA_A) None [])
              initial_state) as (_ & _ & Hbit & Hkeep).
  split; [|split; [|split]].
  - apply (Hbit ext_I 8%Z); [simpl; tauto | lia | reflexivity | reflexivity].
  - apply (Hbit ext_C 2%Z); [simpl; tauto | lia | reflexivity | reflexivity].
  - apply (Hkeep ext_Zba). reflexivity.
  - reflexivity.
Defined.

(** ** The canonical features string *)




(** ** The scenarios of the specification that the code follows *)

(** The bitmask advertises I, M and A only. *)
Example scenario_bitmask_ima :
  let os := mkPlatform None (Z.lor (Z.lor HWCAP_ISA_I HWCAP_ISA_M) HWCAP_ISA_A)
                       None [] in
  let s' := exec (setup_cpu_available_features jdk_declarations os) initial_state in
  _features_string s' = Some "rv64ima" /\
  filter (fun f => _enabled (registry s' f)) jdk_feature_list = [ext_I; ext_M; ext_A] /\
  _features s' = Z.lor (Z.lor HWCAP_ISA_I HWCAP_ISA_M) HWCAP_ISA_A.
Proof. repeat split. Qed.

(** The pseudo-file has no "mmu" line. *)
Example scenario_no_mmu_line :
  let os := mkPlatform None 0 (Some [cpuinfo_line "processor" "0";
                                     cpuinfo_line "hart" "1"]) [] in
  let s' := exec (setup_cpu_available_features jdk_declarations os) initial_state in
  satp_mode_is jdk_declarations s' VM_MBARE /\ _features_string s' = Some "rv64".
Proof. repeat split. Qed.

(** The probe reports the vendor id of the overlay. *)
Example scenario_vendor_overlay :
  let probed r := upd r mvendorid (mkValue true RIVOS_MVENDORID) in
  let os := mkPlatform (Some probed) 0 (Some [cpuinfo_line "mmu" "sv39"]) [] in
  let s' := exec (setup_cpu_available_features jdk_declarations os) initial_state in
  satp_mode_is jdk_declarations s' VM_SV48 /\
  registry s' unaligned_access = mkValue true (MISALIGNED_FAST jdk_declarations) /\
  _features_string s' =
    Some "rv64imafdcqhv_zicbom_zicboz_zicbop_zba_zbb_zbc_zbs_zicsr_zifencei_zic64b_zihintpause" /\
  ~ In sys_getauxval (syscalls s').
Proof.
  intros probed os s'.
  split; [split; vm_compute; reflexivity|].
  split; [vm_compute; reflexivity|].
  split; [vm_compute; reflexivity|].
  vm_compute. intuition discriminate.
Qed.

(** ** The vendor overlay only enables *)

(** C6. A feature that is enabled when the vendor overlay starts is
    enabled when it ends; and whatever the overlay changes it changes by
    enabling: every feature is enabled afterwards or is as it was. *)
Theorem vendor_overlay_monotone {Flags} (decl : Declarations Flags)
  (s : State Flags) (f : feature) :
  _enabled (registry s f) = true ->
  let s' := exec (vendor_features decl) s in
  _enabled (registry s' f) = true /\
  (forall g, _enabled (registry s' g) = true \/ registry s' g = registry s g).
Proof.
  intros Hf. simpl. split.
  - rewrite vendor_features_enabled, Hf. reflexivity.
  - apply vendor_features_only_enables.
Qed.

Lemma vendor_overlay_monotone_witness :
  let s := mkState (upd (upd (registry initial_state) mvendorid
                             (mkValue true RIVOS_MVENDORID))
                        ext_Zihintpause (mkValue true 0))
                   0 None [] [] in
  let s' := exec (vendor_features jdk_declarations) s in
  _enabled (registry s ext_Zihintpause) = true /\
  _enabled (registry s' ext_Zihintpause) = true /\
  _enabled (registry s ext_V) = false /\
  _enabled (registry s' ext_V) = true.
Proof.
  split; [reflexivity|]. split; [|split; reflexivity].
  apply (vendor_overlay_monotone jdk_declarations
           (mkState (upd (upd (registry initial_state) mvendorid
                              (mkValue true RIVOS_MVENDORID))
                         ext_Zihintpause (mkValue true 0))
                    0 None [] [])
           ext_Zihintpause eq_refl).
Defined.

End VMVersionFacts.

(** * Properties of the code stubs *)

Module CodeStubsFacts.
Import CodeStubs.

Local Open Scope list_scope.
Local Open Scope Z_scope.

(** ** Alignment padding *)

Lemma padding_aligns (modulus p : Z) :
  0 < modulus -> (p + Z.of_nat (padding modulus p)) mod modulus = 0.
Proof.
  intros H. unfold padding.
  rewrite Z2Nat.id by (apply Z.mod_pos_bound; exact H).
  rewrite Z.add_mod_idemp_r by lia.
  now rewrite Z.add_opp_diag_r.
Qed.

Lemma padding_bound (modulus p : Z) :
  0 < modulus -> Z.of_nat (padding modulus p) < modulus.
Proof.
  intros H. unfold padding.
  rewrite Z2Nat.id by (apply Z.mod_pos_bound; exact H).
  apply Z.mod_pos_bound; exact H.
Qed.

Lemma run_seq {A B} (c : Asm A) (k : A -> Asm B) (m : C2_MacroAssembler) :
  run (seq c k) m = run (k (fst (c m))) (snd (c m)).
Proof. unfold run, seq. now destruct (c m). Qed.

(** Runs the next primitive of an emitter. *)
Ltac next_primitive :=
  rewrite run_seq;
  cbn [bind movptr jalr j align relocate emit_int32 emit_bytes pc offset pure
       la_patchable addi sd far_jump seq
       fst snd sect_start insts relocs labels].

Lemma entry_barrier_layout (enc : Encoder) (rt : Runtime) (m : C2_MacroAssembler) :
  let body := barrier_call enc rt m in
  let g0 := pc_of m + Z.of_nat (List.length body) in
  let pad := padding 4 g0 in
  let g := g0 + Z.of_nat pad in
  let m' := run (C2EntryBarrierStub_emit enc rt) m in
  sect_start m' = sect_start m /\
  insts m' = insts m ++ body ++ repeat (pad_byte enc) pad ++ int32_bytes 0 /\
  relocs m' = relocs m ++ [(g, entry_guard_type)] /\
  labels m' guard = Some g /\
  labels m' entry = Some (pc_of m) /\
  labels m' continuation = labels m continuation.
Proof.
  destruct m as [st ins rl lb].
  unfold C2EntryBarrierStub_emit, barrier_call.
  do 7 next_primitive.
  unfold run.
  cbn [bind movptr jalr j align relocate emit_int32 emit_bytes pc offset pure
       seq fst snd sect_start insts relocs labels].
  set (c1 := fst (movptr_code enc t0 (method_entry_barrier rt))).
  set (c2 := jalr_code enc ra t0 (snd (movptr_code enc t0 (method_entry_barrier rt)))).
  unfold pc_of, offset_of. cbn [sect_start insts].
  rewrite <- !app_assoc, !length_app.
  assert (Hc : forall a b : option Z,
             (if Label_eq_dec continuation entry then a else b) = b)
    by reflexivity.
  rewrite !Hc, !repeat_length, !Nat2Z.inj_add, !Z.add_assoc.
  repeat split; reflexivity.
Qed.

Lemma poll_stub_layout (enc : Encoder) (rt : Runtime) (so : Z)
  (m : C2_MacroAssembler) :
  let p := pc_of m in
  let la := la_patchable_code enc t0 (p - offset_of m + so) p in
  let c1 := fst la in
  let c2 := addi_code enc t0 t0 (snd la) in
  let c3 := sd_code enc t0 xthread (saved_exception_pc_offset rt) in
  let fj := far_jump_code enc (RuntimeAddress (polling_page_return_handler rt))
              (p + Z.of_nat (List.length c1 + List.length c2 + List.length c3)) in
  let m' := run (C2SafepointPollStub_emit enc rt so) m in
  sect_start m' = sect_start m /\
  insts m' = insts m ++ c1 ++ c2 ++ c3 ++ fst fj /\
  relocs m' = relocs m ++ (p, internal_word_type) :: snd fj /\
  labels m' entry = Some p.
Proof.
  destruct m as [st ins rl lb].
  unfold C2SafepointPollStub_emit.
  do 7 next_primitive.
  unfold run.
  cbn [bind la_patchable addi sd far_jump relocate emit_bytes pc offset pure
       seq fst snd sect_start insts relocs labels
       InternalAddress RuntimeAddress target rspec].
  unfold pc_of, offset_of. cbn [sect_start insts].
  rewrite <- !app_assoc, !length_app, !Nat2Z.inj_add, !Z.add_assoc.
  repeat split; reflexivity.
Qed.

(** ** The RV64 encoder meets the size contract *)

Lemma rv64_sizes : SizeContract rv64.
Proof.
  constructor; simpl; intros.
  - unfold rv_la_patchable.
    destruct ((- 2 ^ 31 <=? dest - p) && (dest - p <? 2 ^ 31)); simpl; lia.
  - apply Nat.le_refl.
  - apply Nat.le_refl.
  - unfold rv_far_jump, rv_la_patchable.
    destruct ((- 2 ^ 20 <=? target dest - p) && (target dest - p <? 2 ^ 20));
      [simpl; lia|].
    destruct ((- 2 ^ 31 <=? target dest - p) && (target dest - p <? 2 ^ 31));
      simpl; lia.
  - apply Nat.le_refl.
  - apply Nat.le_refl.
  - destruct dest; simpl; lia.
Qed.

(** ** The guard word *)

(** C1. Wherever the section starts and whatever it already holds when
    [C2EntryBarrierStub::emit] begins, the address bound to [guard()] is a
    multiple of 4, and the guard word is what the section holds there. *)
Theorem guard_is_word_aligned (enc : Encoder) (rt : Runtime)
  (m : C2_MacroAssembler) :
  let m' := run (C2EntryBarrierStub_emit enc rt) m in
  exists g, labels m' guard = Some g /\ g mod 4 = 0 /\
            bytes_at m' g = int32_bytes 0.
Proof.
  pose proof (entry_barrier_layout enc rt m) as H. cbv zeta in H.
  destruct H as (Hs & Hi & _ & Hg & _).
  cbv zeta. eexists. split; [exact Hg|]. split.
  - apply padding_aligns. lia.
  - unfold bytes_at. rewrite Hs, Hi.
    set (body := barrier_call enc rt m).
    set (pad := padding 4 (pc_of m + Z.of_nat (List.length body))).
    replace (Z.to_nat (pc_of m + Z.of_nat (List.length body) + Z.of_nat pad
                       - sect_start m))
      with (List.length (insts m ++ body ++ repeat (pad_byte enc) pad)).
    + replace (insts m ++ body ++ repeat (pad_byte enc) pad ++ int32_bytes 0)
        with ((insts m ++ body ++ repeat (pad_byte enc) pad) ++ int32_bytes 0)
        by (now rewrite <- !app_assoc).
      rewrite skipn_app, skipn_all, Nat.sub_diag. reflexivity.
    + unfold pc_of, offset_of. rewrite !length_app, repeat_length. lia.
Qed.

(** C10. Every emission of the entry-barrier stub ends with the guard
    word: the last four bytes of the section are the 32-bit zero, the
    last relocation record is the entry-guard relocation, and that record
    and [guard()] both name the address of the word. *)
Theorem guard_word_is_zero (enc : Encoder) (rt : Runtime)
  (m : C2_MacroAssembler) :
  let m' := run (C2EntryBarrierStub_emit enc rt) m in
  exists before g,
    insts m' = before ++ [Byte.x00; Byte.x00; Byte.x00; Byte.x00] /\
    g = sect_start m' + Z.of_nat (List.length before) /\
    relocs m' = relocs m ++ [(g, entry_guard_type)] /\
    labels m' guard = Some g.
Proof.
  pose proof (entry_barrier_layout enc rt m) as H. cbv zeta in H.
  destruct H as (Hs & Hi & Hr & Hg & _).
  cbv zeta.
  set (body := barrier_call enc rt m) in *.
  set (pad := padding 4 (pc_of m + Z.of_nat (List.length body))) in *.
  exists (insts m ++ body ++ repeat (pad_byte enc) pad).
  exists (pc_of m + Z.of_nat (List.length body) + Z.of_nat pad).
  split; [|split; [|split]].
  - rewrite Hi, <- !app_assoc. reflexivity.
  - rewrite Hs. unfold pc_of, offset_of.
    rewrite !length_app, repeat_length. lia.
  - exact Hr.
  - exact Hg.
Qed.

(** ** The size bounds *)

(** C2. With every primitive within its budget, neither stub adds more
    bytes to the section than its [max_size()]: 52 for the safepoint-poll
    stub, 36 for the entry-barrier stub; for every target address, every
    start of the section and every number of bytes it already holds. *)
Theorem emit_within_max_size (enc : Encoder) (rt : Runtime)
  (m : C2_MacroAssembler) (_safepoint_offset : Z) :
  SizeContract enc ->
  C2SafepointPollStub_max_size = 52 /\
  C2EntryBarrierStub_max_size = 36 /\
  emitted m (run (C2SafepointPollStub_emit enc rt _safepoint_offset) m)
    <= C2SafepointPollStub_max_size /\
  emitted m (run (C2EntryBarrierStub_emit enc rt) m)
    <= C2EntryBarrierStub_max_size.
Proof.
  intros [Hla Haddi Hsd Hfar Hmov Hjalr Hj].
  split; [reflexivity|]. split; [reflexivity|]. split.
  - pose proof (poll_stub_layout enc rt _safepoint_offset m) as H.
    cbv zeta in H. destruct H as (_ & Hi & _).
    unfold emitted, offset_of, C2SafepointPollStub_max_size.
    rewrite Hi. rewrite !length_app.
    match goal with
    | |- context [List.length (fst ?c)] =>
        pose proof (Hla t0 (pc_of m - offset_of m + _safepoint_offset) (pc_of m))
    end.
    match goal with
    | |- context [addi_code enc ?a ?b ?c] => pose proof (Haddi a b c)
    end.
    match goal with
    | |- context [sd_code enc ?a ?b ?c] => pose proof (Hsd a b c)
    end.
    match goal with
    | |- context [far_jump_code enc ?a ?b] => pose proof (Hfar a b)
    end.
    unfold offset_of in *. lia.
  - pose proof (entry_barrier_layout enc rt m) as H.
    cbv zeta in H. destruct H as (_ & Hi & _).
    unfold emitted, offset_of, C2EntryBarrierStub_max_size.
    rewrite Hi. rewrite !length_app, repeat_length.
    pose proof (padding_bound 4
      (pc_of m + Z.of_nat (List.length (barrier_call enc rt m))) eq_refl).
    unfold barrier_call in *. rewrite !length_app in *.
    pose proof (Hmov t0 (method_entry_barrier rt)).
    match goal with
    | |- context [jalr_code enc ?a ?b ?c] => pose proof (Hjalr a b c)
    end.
    match goal with
    | |- context [j_code enc ?a ?b] => pose proof (Hj a b)
    end.
    simpl List.length. lia.
Qed.

(** Both the address of the safepoint and the handler are further than
    2 GiB away: every primitive takes its long form and the
    safepoint-poll stub fills its 52 bytes. *)
Lemma emit_within_max_size_witness :
  let m := section_at 0x7f0000500000 6 in
  let far := 2 ^ 40 in
  SizeContract rv64 /\
  emitted m (run (C2SafepointPollStub_emit rv64 a_distant_runtime far) m) = 52 /\
  emitted m (run (C2SafepointPollStub_emit rv64 a_distant_runtime far) m) <= 52 /\
  emitted m (run (C2EntryBarrierStub_emit rv64 a_distant_runtime) m) <= 36.
Proof.
  split; [exact rv64_sizes|]. split; [reflexivity|].
  destruct (emit_within_max_size rv64 a_distant_runtime
              (section_at 0x7f0000500000 6) (2 ^ 40) rv64_sizes)
    as (_ & _ & H1 & H2).
  split; [exact H1 | exact H2].
Defined.

(** ** The stubs on the RV64 encoder *)

(** The safepoint-poll stub by the distance of the handler: within reach
    of a jump instruction four instructions, within 2 GiB five, the far
    jump being two, and further away nine; the relocation of the handler
    is recorded on the two long paths. *)
Example poll_stub_by_distance :
  let m := section_at 0x7f0000500000 6 in
  let near := {| polling_page_return_handler := 0x7f0000508000;
                 method_entry_barrier := 0x7f0000123458;
                 saved_exception_pc_offset := 920 |} in
  emitted m (run (C2SafepointPollStub_emit rv64 near 16) m) = 16 /\
  relocs (run (C2SafepointPollStub_emit rv64 near 16) m) =
    [(0x7f0000500006, internal_word_type)] /\
  emitted m (run (C2SafepointPollStub_emit rv64 a_runtime 16) m) = 20 /\
  relocs (run (C2SafepointPollStub_emit rv64 a_runtime 16) m) =
    [(0x7f0000500006, internal_word_type); (0x7f0000500012, runtime_call_type)] /\
  emitted m (run (C2SafepointPollStub_emit rv64 a_distant_runtime 16) m) = 36 /\
  relocs (run (C2SafepointPollStub_emit rv64 a_distant_runtime 16) m) =
    [(0x7f0000500006, internal_word_type); (0x7f0000500012, runtime_call_type)].
Proof. repeat split. Qed.

(** Started two bytes behind a word boundary, the entry-barrier stub
    pads by two bytes and takes 34. *)
Example entry_barrier_padded :
  let m := section_at 0x7f0000500000 6 in
  let m' := run (C2EntryBarrierStub_emit rv64 a_runtime) m in
  emitted m m' = 34 /\
  labels m' entry = Some 0x7f0000500006 /\
  labels m' guard = Some 0x7f0000500024 /\
  relocs m' = [(0x7f0000500024, entry_guard_type)].
Proof. repeat split. Qed.

(** The budgets are the least that [max_size()] allows for: with one
    word more in the far jump, and the other primitives at their budget,
    the safepoint-poll stub passes its bound. *)
Example poll_stub_over_budget :
  let words (n : nat) := repeat Byte.x00 (4 * n)%nat in
  let enc := {| la_patchable_code := fun _ _ _ => (words 5%nat, 0);
                addi_code := fun _ _ _ => words 1%nat;
                sd_code := fun _ _ _ => words 1%nat;
                far_jump_code := fun _ _ => (words 7%nat, []);
                movptr_code := fun _ _ => (words 5%nat, 0);
                jalr_code := fun _ _ _ => words 1%nat;
                j_code := fun _ _ => words 1%nat;
                pad_byte := Byte.x00 |} in
  let m := section_at 0x7f0000500000 0 in
  emitted m (run (C2SafepointPollStub_emit enc a_runtime 16) m) = 56 /\
  C2SafepointPollStub_max_size = 52.
Proof. split; reflexivity. Qed.

End CodeStubsFacts.

(** * Further properties of the detection pass *)

Module VMVersionExtra.
Import CString VMVersion VMVersionFacts.

(** ** [parse_satp_mode] *)

(** X1. [parse_satp_mode] answers one of the four Sv modes exactly for
    its name, compared as a whole string: anything behind the name, such
    as the newline of a line, makes the answer [VM_MBARE]. It never
    answers [VM_NOTSET]. *)
Theorem parse_satp_mode_exact (v : string) :
  (parse_satp_mode v = VM_SV39 <-> v = "sv39") /\
  (parse_satp_mode v = VM_SV48 <-> v = "sv48") /\
  (parse_satp_mode v = VM_SV57 <-> v = "sv57") /\
  (parse_satp_mode v = VM_SV64 <-> v = "sv64") /\
  parse_satp_mode v <> VM_NOTSET /\
  (forall name x, In name ["sv39"; "sv48"; "sv57"; "sv64"] -> x <> "" ->
     parse_satp_mode (name ++ x) = VM_MBARE).
Proof.
  unfold parse_satp_mode, strcmp_eq.
  repeat split;
    try (destruct (String.eqb_spec v "sv39") as [->|H39];
         [simpl; congruence|];
         destruct (String.eqb_spec v "sv48") as [->|H48];
         [simpl; congruence|];
         destruct (String.eqb_spec v "sv57") as [->|H57];
         [simpl; congruence|];
         destruct (String.eqb_spec v "sv64") as [->|H64];
         [simpl; congruence|];
         congruence).
  intros name x Hin Hx.
  destruct x as [|c x]; [congruence|].
  simpl in Hin.
  destruct Hin as [<-|[<-|[<-|[<-|[]]]]]; reflexivity.
Qed.


(** ** What the pass leaves in [_features], in the flags and in the string *)

Section Finalization.

Context {Flags : Type}.
Variable decl : Declarations Flags.
Variable os : Platform.

Lemma keeps_bind {A B} (m : VM (Flags := Flags) A) (k : A -> VM B) :
  keeps_mask_and_flags m -> (forall a, keeps_mask_and_flags (k a)) ->
  keeps_mask_and_flags (bind m k).
Proof.
  intros Hm Hk s. rewrite exec_bind.
  destruct (Hk (eval m s) (exec m s)) as [-> ->]. apply Hm.
Qed.

Lemma keeps_isa_sources : keeps_mask_and_flags (isa_sources decl os).
Proof.
  intros s. unfold isa_sources, probe_features.
  destruct (hwprobe os) as [populate|].
  - unfold exec. rewrite run_bind. simpl. auto.
  - unfold exec. run_binds. unfold os_aux_features, getauxval_AT_HWCAP.
    run_binds.
    destruct (os_aux_loop_frame decl (_feature_list decl) (AT_HWCAP os)
      (mkState (registry s) (_features s) (_features_string s) (flags s)
               ((syscalls s ++ [sys_hwprobe false]) ++ [sys_getauxval])))
      as (H1 & _ & H2 & _).
    unfold exec in H1, H2. simpl in H1, H2. auto.
Qed.

Lemma keeps_os_uarch :
  keeps_mask_and_flags (os_uarch_additional_features decl os).
Proof.
  intros s. unfold os_uarch_additional_features, fopen_proc_cpuinfo, exec.
  destruct (proc_cpuinfo os) as [lines|]; run_binds; [|auto].
  destruct (scan_frame lines (buf_on_entry os) VM_NOTSET None
    (mkState (registry s) (_features s) (_features_string s) (flags s)
             (syscalls s ++ [sys_fopen true]))) as (_ & H1 & _ & H2).
  unfold exec in H1, H2. simpl in H1, H2. auto.
Qed.

Lemma keeps_vendor_features : keeps_mask_and_flags (vendor_features decl).
Proof.
  intros s. destruct (vendor_features_frame decl s) as (H1 & _ & H2 & _).
  auto.
Qed.

(** The mask and the flags with which the loop over [_feature_list]
    ends are those of the whole pass; it starts from those the pass was
    entered with. *)
Lemma setup_run_rest (s : State Flags) :
  let s1 := exec (isa_sources decl os) s in
  let uarch := eval (os_uarch_additional_features decl os) s1 in
  let s2 := exec (os_uarch_additional_features decl os) s1 in
  let s3 := exec (vendor_features decl) s2 in
  let s4 := exec (features_loop decl (_feature_list decl)
                    (uarch_prefix uarch ++ "rv64")) s3 in
  let s' := exec (setup_cpu_available_features decl os) s in
  _features s' = _features s4 /\ flags s' = flags s4 /\
  _features s3 = _features s /\ flags s3 = flags s.
Proof.
  simpl. split; [|split].
  - unfold setup_cpu_available_features, isa_sources, exec, eval,
      set_features_string. run_binds. reflexivity.
  - unfold setup_cpu_available_features, isa_sources, exec, eval,
      set_features_string. run_binds. reflexivity.
  - destruct (keeps_vendor_features
                (exec (os_uarch_additional_features decl os)
                      (exec (isa_sources decl os) s))) as [-> ->].
    destruct (keeps_os_uarch (exec (isa_sources decl os) s)) as [-> ->].
    apply keeps_isa_sources.
Qed.

Lemma features_loop_rest (l : list feature) (buf : string) (s : State Flags)
  (r : Registry) :
  registry s = r ->
  _features (exec (features_loop decl l buf) s) =
    fold_left Z.lor (map (feature_bit decl) (filter (fun f => _enabled (r f)) l))
              (_features s) /\
  flags (exec (features_loop decl l buf) s) =
    fold_left (fun fl f => update_flag decl f fl)
              (filter (fun f => _enabled (r f)) l) (flags s).
Proof.
  revert buf s. induction l as [|f l IH]; intros buf s Hr; [split; reflexivity|].
  unfold exec in *. simpl. unfold enabled. run_binds. rewrite Hr.
  destruct (_enabled (r f)); simpl; [|now apply IH].
  run_binds.
  destruct (feature_bit decl f =? 0)%Z eqn:Hb; simpl.
  - apply Z.eqb_eq in Hb. rewrite Hb, Z.lor_0_r.
    exact (IH (append_feature decl buf f)
              (mkState (registry s) (_features s) (_features_string s)
                       (update_flag decl f (flags s)) (syscalls s)) Hr).
  - exact (IH (append_feature decl buf f)
              (mkState (registry s) (Z.lor (_features s) (feature_bit decl f))
                       (_features_string s) (update_flag decl f (flags s))
                       (syscalls s)) Hr).
Qed.

Lemma testbit_fold_lor (bits : list Z) (acc k : Z) :
  Z.testbit (fold_left Z.lor bits acc) k =
  Z.testbit acc k || existsb (fun b => Z.testbit b k) bits.
Proof.
  revert acc. induction bits as [|b bits IH]; intros acc; simpl.
  - now rewrite orb_false_r.
  - rewrite IH, Z.lor_spec, orb_assoc. reflexivity.
Qed.

Lemma existsb_map_filter {A B} (p : A -> bool) (g : A -> B) (q : B -> bool)
  (l : list A) :
  existsb q (map g (filter p l)) = existsb (fun x => p x && q (g x)) l.
Proof.
  induction l as [|x l IH]; [reflexivity|]. simpl.
  destruct (p x); simpl; now rewrite IH.
Qed.

(** X2. After the pass a bit of [_features] is set exactly when it was
    set before or is a bit of the [feature_bit()] of a feature of
    [_feature_list] that ends enabled. No other step of the pass touches
    the mask, and no bit is ever cleared. *)
Theorem features_mask_after_pass (s : State Flags) (k : Z) :
  let s' := exec (setup_cpu_available_features decl os) s in
  Z.testbit (_features s') k =
  Z.testbit (_features s) k ||
  existsb (fun f => _enabled (registry s' f) && Z.testbit (feature_bit decl f) k)
          (_feature_list decl).
Proof.
  destruct (setup_run decl os s) as [Hreg _].
  destruct (setup_run_rest s) as (Hm & _ & Hm3 & _).
  simpl in *. rewrite Hm, Hreg.
  match goal with
  | |- context [exec (features_loop decl ?l ?b) ?st] =>
      destruct (features_loop_rest l b st _ eq_refl) as [-> _]
  end.
  rewrite testbit_fold_lor, Hm3, existsb_map_filter. reflexivity.
Qed.

(** X3. The flags with which the pass ends are those it was entered
    with, after [update_flag()] of every feature of [_feature_list] that
    ends enabled, once for each place it has in the list, in the order of
    the list; a disabled feature never has its flag updated. *)
Theorem flags_after_pass (s : State Flags) :
  let s' := exec (setup_cpu_available_features decl os) s in
  flags s' =
  fold_left (fun fl f => update_flag decl f fl)
            (filter (fun f => _enabled (registry s' f)) (_feature_list decl))
            (flags s).
Proof.
  destruct (setup_run decl os s) as [Hreg _].
  destruct (setup_run_rest s) as (_ & Hf & _ & Hf3).
  simpl in *. rewrite Hf, Hreg.
  match goal with
  | |- context [exec (features_loop decl ?l ?b) ?st] =>
      destruct (features_loop_rest l b st _ eq_refl) as [_ ->]
  end.
  now rewrite Hf3.
Qed.

Lemma append_feature_printed (buf : string) (f : feature) :
  pretty decl f <> "" -> feature_string decl f = true ->
  append_feature decl buf f = buf ++ printed (pretty decl f).
Proof.
  unfold append_feature, printed. intros Hne ->.
  destruct (length (pretty decl f) =? 1)%nat; [reflexivity|].
  destruct (pretty decl f) as [|c rest]; [congruence|].
  simpl. now rewrite tolower_small_letter, app_string_assoc.
Qed.

Lemma fold_printed (fs : list feature) (buf : string) :
  (forall f, In f fs -> feature_string decl f = true -> pretty decl f <> "") ->
  fold_left (append_feature decl) fs buf =
  buf ++ concat "" (map (fun f => printed (pretty decl f))
                        (filter (feature_string decl) fs)).
Proof.
  revert buf. induction fs as [|f fs IH]; intros buf Hn; simpl.
  - now rewrite app_string_nil_r.
  - rewrite IH by (intros g Hg; apply Hn; now right).
    destruct (feature_string decl f) eqn:Hs.
    + rewrite (append_feature_printed buf f (Hn f (or_introl eq_refl) Hs) Hs).
      rewrite map_cons, concat_cons, app_string_assoc. reflexivity.
    + now rewrite append_feature_hidden.
Qed.

(** X4. With names as the loop asserts them and short enough for
    [buf], whatever the sources, the pass ends with a features string:
    the prefix for the micro-architecture name, the base tag "rv64" and,
    in the order of [_feature_list], every enabled feature that takes
    part in the string, a one-character name as it is and any other
    behind an underscore with only its first character put in lower
    case. *)
Theorem features_string_structure (s : State Flags) :
  names_asserted decl -> token_room decl (_feature_list decl) < 509 ->
  let s1 := exec (isa_sources decl os) s in
  let uarch := eval (os_uarch_additional_features decl os) s1 in
  let s' := exec (setup_cpu_available_features decl os) s in
  _features_string s' =
  Some (uarch_prefix uarch ++ "rv64" ++
        concat "" (map (fun f => printed (pretty decl f))
                       (filter (fun f => _enabled (registry s' f) &&
                                         feature_string decl f)
                               (_feature_list decl)))) /\
  exists buf, _features_string s' = Some buf /\ length buf < 1024.
Proof.
  intros Hn Hroom. destruct (setup_run decl os s) as [Hreg [Hstr _]]. simpl in *.
  split; [|now apply features_string_fits].
  rewrite Hstr, Hreg, fold_printed, filter_andb, app_string_assoc.
  - reflexivity.
  - intros f Hf. apply filter_In in Hf as [Hf _]. now apply Hn.
Qed.


End Finalization.

Lemma features_string_structure_witness :
  let os := mkPlatform None HWCAP_ISA_I (Some [cpuinfo_line "uarch" "u74"]) [] in
  let s := state_with (upd (registry initial_state) ext_Zba (mkValue true 0)) in
  (names_asserted renamed_declarations /\
   token_room renamed_declarations (_feature_list renamed_declarations) < 509) /\
  _features_string (exec (setup_cpu_available_features renamed_declarations os) s) =
    Some ("u74" ++ nl ++ ",rv64i_zBA").
Proof.
  assert (Hn : names_asserted renamed_declarations).
  { intros f _ _. destruct f; discriminate. }
  assert (Hr : token_room renamed_declarations
                 (_feature_list renamed_declarations) < 509)
    by (vm_compute; lia).
  split; [split; assumption|].
  destruct (features_string_structure renamed_declarations
              (mkPlatform None HWCAP_ISA_I (Some [cpuinfo_line "uarch" "u74"]) [])
              (state_with (upd (registry initial_state) ext_Zba (mkValue true 0)))
              Hn Hr) as [H _].
  rewrite H. reflexivity.
Defined.


(** ** The name of the micro-architecture *)

Lemma substring_all (m : nat) (a : string) :
  length a <= m -> substring 0 m a = a.
Proof.
  revert m. induction a as [|c a IH]; intros m H.
  - now destruct m.
  - destruct m as [|m]; simpl in *; [lia|]. rewrite IH by lia. reflexivity.
Qed.

Lemma strchr_length (s : string) (c : ascii) (p : string) :
  strchr s c = Some p -> length p <= length s.
Proof.
  induction s as [|a s IH]; simpl; [discriminate|].
  destruct (Ascii.eqb a c).
  - intros [= <-]. simpl. lia.
  - intros H. specialize (IH H). lia.
Qed.

Lemma length_store_nul (s : string) (i : nat) :
  length (store_nul s i) <= length s.
Proof.
  unfold store_nul, store_in_block.
  destruct (i <=? length s)%nat eqn:E; [|lia].
  apply Nat.leb_le in E. pose proof (length_substring_le 0 i s). lia.
Qed.

(** What is read back after the store has fewer characters than the
    index of the store, or as many. *)
Lemma length_store_nul_index (s : string) (i : nat) :
  length (store_nul s i) <= i.
Proof.
  unfold store_nul, store_in_block.
  destruct (i <=? length s)%nat eqn:E.
  - apply length_substring_le.
  - apply Nat.leb_gt in E. lia.
Qed.

Lemma strcspn_length (s : string) (c : ascii) : strcspn s c <= length s.
Proof.
  induction s as [|a s IH]; simpl; [lia|].
  destruct (Ascii.eqb a c); lia.
Qed.

(** The colon of a line that starts with "uarch" comes after the key. *)
Lemma uarch_line_colon (buf p : string) :
  strncmp_eq buf "uarch" = true -> strchr buf colon = Some p ->
  length p + 5 <= length buf.
Proof.
  unfold strncmp_eq.
  destruct buf as [|c1 buf]; [discriminate|]. cbn [prefix].
  destruct (ascii_dec "u" c1) as [<-|]; [|discriminate].
  destruct buf as [|c2 buf]; [discriminate|]. cbn [prefix].
  destruct (ascii_dec "a" c2) as [<-|]; [|discriminate].
  destruct buf as [|c3 buf]; [discriminate|]. cbn [prefix].
  destruct (ascii_dec "r" c3) as [<-|]; [|discriminate].
  destruct buf as [|c4 buf]; [discriminate|]. cbn [prefix].
  destruct (ascii_dec "c" c4) as [<-|]; [|discriminate].
  destruct buf as [|c5 buf]; [discriminate|]. cbn [prefix].
  destruct (ascii_dec "h" c5) as [<-|]; [|discriminate].
  intros _ H.
  change (strchr (String "u" (String "a" (String "r" (String "c" (String "h" buf))))) colon)
    with (strchr buf colon) in H.
  apply strchr_length in H. simpl. lia.
Qed.

(** X6. A name that comes from the pseudo-file is never cut by the
    bound of [snprintf]: every line that [fgets] stores has at most 511
    characters, so the name has at most 504 and the prefix is the name
    followed by the comma. *)
Theorem uarch_never_truncated {Flags} (decl : Declarations Flags)
  (os : Platform) (lines : list string) (s : State Flags) (u : string) :
  proc_cpuinfo os = Some lines -> Forall fgets_sized lines ->
  eval (os_uarch_additional_features decl os) s = Some u ->
  length u <= 504 /\ snprintf_comma 512 u = u ++ ",".
Proof.
  intros Hfile Hsized Hu.
  destruct (os_uarch_open decl os lines s Hfile) as [He _].
  rewrite He in Hu.
  pose proof (first_uarch_line (buf_on_entry os) lines) as Hl.
  destruct (find is_uarch_line lines) as [buf|] eqn:Hfind; [|congruence].
  destruct Hl as [behind Hl]. rewrite Hl in Hu.
  apply find_some in Hfind as [Hin Hline].
  rewrite Forall_forall in Hsized. specialize (Hsized buf Hin).
  unfold fgets_sized in Hsized.
  unfold is_uarch_line in Hline.
  destruct (strchr buf colon) as [p|] eqn:Hp; [|discriminate].
  assert (Hsnd : snd (scan_line buf behind VM_NOTSET None) =
                 Some (store_nul (advance 2 p behind) (strcspn p newline))).
  { unfold scan_line. rewrite Hp, Hline. reflexivity. }
  assert (Heq : u = store_nul (advance 2 p behind) (strcspn p newline))
    by congruence.
  subst u.
  pose proof (uarch_line_colon buf p Hline Hp) as Hlen.
  assert (Hle : length (store_nul (advance 2 p behind) (strcspn p newline))
                <= 504).
  { destruct (le_lt_dec 2 (length p)) as [H2|H2].
    - pose proof (length_store_nul (advance 2 p behind) (strcspn p newline))
        as Hs.
      rewrite (advance_within 2 p behind H2), length_drop in Hs.
      rewrite (advance_within 2 p behind H2). lia.
    - pose proof (length_store_nul_index (advance 2 p behind)
                    (strcspn p newline)) as Hs.
      pose proof (strcspn_length p newline). lia. }
  split; [exact Hle|].
  unfold snprintf_comma. apply substring_all.
  rewrite length_app_string. change (length ",") with 1. lia.
Qed.

Lemma uarch_never_truncated_witness :
  let lines := [cpuinfo_line "processor" "0"; cpuinfo_line "uarch" "sifive-u74"] in
  let os := mkPlatform None 0 (Some lines) [] in
  let u := "sifive-u74" ++ nl in
  (proc_cpuinfo os = Some lines /\ Forall fgets_sized lines /\
   eval (os_uarch_additional_features jdk_declarations os) initial_state = Some u) /\
  length u <= 504 /\ snprintf_comma 512 u = u ++ ",".
Proof.
  assert (Hs : Forall fgets_sized
                 [cpuinfo_line "processor" "0"; cpuinfo_line "uarch" "sifive-u74"]).
  { repeat constructor; unfold fgets_sized; vm_compute; lia. }
  split; [split; [reflexivity | split; [exact Hs | reflexivity]]|].
  exact (uarch_never_truncated jdk_declarations
           (mkPlatform None 0 (Some [cpuinfo_line "processor" "0";
                                     cpuinfo_line "uarch" "sifive-u74"]) [])
           _ initial_state ("sifive-u74" ++ nl) eq_refl Hs eq_refl).
Defined.

(** ** The stream of the pseudo-file *)

Section Stream.

Context {Flags : Type}.
Variable decl : Declarations Flags.
Variable os : Platform.

Lemma scan_calls (f : list string) (cells : list ascii) (mode : VM_MODE)
  (ret : option string) (s : State Flags) :
  exists mid,
    syscalls (exec (scan f cells mode ret) s) = (syscalls s ++ mid)%list /\
    forallb is_fgets mid = true.
Proof.
  revert cells mode ret s. induction f as [|buf f IH]; intros cells mode ret s.
  - exists [sys_fgets None]. split; reflexivity.
  - unfold exec in *.
    destruct (both_found (mode, ret)) eqn:Hb.
    + rewrite (scan_leave _ _ _ _ _ _ Hb).
      exists [sys_fgets (Some buf)]. split; reflexivity.
    + rewrite (scan_step _ _ _ _ _ _ Hb).
      match goal with
      | |- context [scan f ?c ?m ?r ?st] =>
          destruct (IH c m r st) as [mid [Hc Hm]]
      end.
      exists (sys_fgets (Some buf) :: mid). split.
      * rewrite Hc. simpl. now rewrite <- app_assoc.
      * exact Hm.
Qed.

(** X7. [os_uarch_additional_features] closes the stream exactly when
    it opened it: after a failed [fopen] it makes no further call, and
    after a successful one it makes only [fgets] calls and then one
    [fclose], which is its last call. *)
Theorem stream_opened_is_closed (s : State Flags) :
  exists mid,
    forallb is_fgets mid = true /\
    syscalls (exec (os_uarch_additional_features decl os) s) =
    (syscalls s ++
     match proc_cpuinfo os with
     | None => [sys_fopen false]
     | Some _ => sys_fopen true :: mid ++ [sys_fclose]
     end)%list.
Proof.
  destruct (proc_cpuinfo os) as [lines|] eqn:H.
  - unfold os_uarch_additional_features, fopen_proc_cpuinfo, exec.
    rewrite H. run_binds.
    destruct (scan_calls lines (buf_on_entry os) VM_NOTSET None
      (mkState (registry s) (_features s) (_features_string s) (flags s)
               (syscalls s ++ [sys_fopen true]))) as [mid [Hc Hm]].
    unfold exec in Hc. rewrite Hc. simpl.
    exists mid. split; [exact Hm|]. now rewrite <- !app_assoc.
  - exists []. split; [reflexivity|].
    unfold exec. now rewrite (os_uarch_closed decl os s H).
Qed.

Lemma scan_to_end (lines : list string) (cells : list ascii) (mode : VM_MODE)
  (ret : option string) (s : State Flags) :
  both_found (scan_all lines cells mode ret) = false ->
  syscalls (exec (scan lines cells mode ret) s) =
  (syscalls s ++ map (fun l => sys_fgets (Some l)) lines ++ [sys_fgets None])%list.
Proof.
  revert cells mode ret s.
  induction lines as [|buf lines IH]; intros cells mode ret s Hno.
  - reflexivity.
  - assert (Hstart : both_found (mode, ret) = false).
    { destruct (both_found (mode, ret)) eqn:E; [|reflexivity].
      rewrite (scan_all_found _ _ _ _ E) in Hno. congruence. }
    unfold exec in *. rewrite (scan_step _ _ _ _ _ _ Hstart).
    rewrite scan_all_cons in Hno.
    rewrite (IH _ _ _ _ Hno). simpl. now rewrite <- app_assoc.
Qed.

(** X8. When the pseudo-file lacks one of the two fields, the loop
    fetches every line and ends on the [fgets] that reports the end of
    the file; the mode is still that of the first line that carries one,
    and the name what the loop body takes from the first line that
    carries one, with [buf] as the lines before it left it. *)
Theorem scan_reads_to_end_of_file (lines : list string) (cells : list ascii)
  (s : State Flags) :
  both_found (scan_all lines cells VM_NOTSET None) = false ->
  syscalls (exec (scan lines cells VM_NOTSET None) s) =
    (syscalls s ++ map (fun l => sys_fgets (Some l)) lines ++ [sys_fgets None])%list /\
  eval (scan lines cells VM_NOTSET None) s =
    (first_mmu lines, first_uarch cells lines).
Proof.
  intros H. split.
  - now apply scan_to_end.
  - rewrite scan_result, scan_all_first. reflexivity.
Qed.

Lemma find_filter {A} (p q : A -> bool) (l : list A) :
  (forall x, p x = true -> q x = true) ->
  find p (filter q l) = find p l.
Proof.
  intros H. induction l as [|x l IH]; [reflexivity|]. simpl.
  destruct (q x) eqn:Hq; simpl.
  - destruct (p x); [reflexivity | exact IH].
  - destruct (p x) eqn:Hp; [|exact IH].
    rewrite (H x Hp) in Hq. discriminate.
Qed.

Lemma forallb_filter {A} (p q : A -> bool) (l : list A) :
  forallb p l = true -> forallb p (filter q l) = true.
Proof.
  induction l as [|x l IH]; [reflexivity|]. simpl.
  intros H. apply andb_true_iff in H as [Hx Hl].
  destruct (q x); simpl; [rewrite Hx|]; now apply IH.
Qed.

(** X9. In a pseudo-file in which no line ends with its colon, lines
    that have no colon, or start with neither "mmu" nor "uarch", do not
    bear on the results: the loop yields the same with all of them
    removed, and so with any one of them removed. *)
Theorem other_lines_are_ignored (lines : list string) (cells : list ascii)
  (s : State Flags) :
  forallb reads_within lines = true ->
  eval (scan lines cells VM_NOTSET None) s =
    eval (scan (filter carries_field lines) cells VM_NOTSET None) s /\
  (forall before other after,
     lines = (before ++ other :: after)%list -> carries_field other = false ->
     eval (scan lines cells VM_NOTSET None) s =
     eval (scan (before ++ after) cells VM_NOTSET None) s).
Proof.
  intros Hin.
  assert (Hall : forall l, forallb reads_within l = true ->
    eval (scan l cells VM_NOTSET None) s =
    eval (scan (filter carries_field l) cells VM_NOTSET None) s).
  { intros l Hl. rewrite !scan_result, !scan_all_first. simpl.
    rewrite !first_uarch_within by (try apply forallb_filter; exact Hl).
    unfold first_mmu, carries_field.
    rewrite !find_filter; [reflexivity| |].
    - intros x Hx. rewrite Hx. apply orb_true_r.
    - intros x Hx. now rewrite Hx. }
  split; [now apply Hall|].
  intros before other after -> Hother.
  assert (Hrest : forallb reads_within (before ++ after) = true).
  { rewrite forallb_app in *. simpl in Hin.
    apply andb_true_iff in Hin as [H1 H2].
    apply andb_true_iff in H2 as [_ H2]. now rewrite H1, H2. }
  rewrite (Hall _ Hin), (Hall _ Hrest).
  rewrite !filter_app. simpl. now rewrite Hother.
Qed.

End Stream.

Lemma scan_reads_to_end_of_file_witness :
  let lines := [cpuinfo_line "processor" "0"; cpuinfo_line "mmu" "sv39";
                cpuinfo_line "isa" "rv64imafdc"] in
  both_found (scan_all lines [] VM_NOTSET None) = false /\
  lines_read (syscalls (exec (scan lines [] VM_NOTSET None) initial_state)) = lines /\
  eval (scan lines [] VM_NOTSET None) initial_state = (VM_MBARE, None).
Proof.
  split; [reflexivity|].
  destruct (scan_reads_to_end_of_file
              [cpuinfo_line "processor" "0"; cpuinfo_line "mmu" "sv39";
               cpuinfo_line "isa" "rv64imafdc"] [] initial_state eq_refl)
    as [Hcalls Hres].
  split; [rewrite Hcalls; reflexivity | rewrite Hres; reflexivity].
Defined.

Lemma other_lines_are_ignored_witness :
  let lines := [cpuinfo_line "processor" "0"; cpuinfo_line "uarch" "sifive-u74";
                cpuinfo_line "isa" "rv64imafdc"; cpuinfo_line "mmu" "sv39"] in
  forallb reads_within lines = true /\
  filter carries_field lines =
    [cpuinfo_line "uarch" "sifive-u74"; cpuinfo_line "mmu" "sv39"] /\
  eval (scan lines [] VM_NOTSET None) initial_state =
    eval (scan [cpuinfo_line "uarch" "sifive-u74"; cpuinfo_line "mmu" "sv39"]
               [] VM_NOTSET None) initial_state.
Proof.
  split; [reflexivity|]. split; [reflexivity|].
  exact (proj1 (other_lines_are_ignored
                  [cpuinfo_line "processor" "0"; cpuinfo_line "uarch" "sifive-u74";
                   cpuinfo_line "isa" "rv64imafdc"; cpuinfo_line "mmu" "sv39"]
                  [] initial_state eq_refl)).
Defined.

(** ** What a uarch line yields *)

Lemma prefix_app (lit k x : string) :
  prefix lit k = true -> prefix lit (k ++ x) = true.
Proof.
  revert k. induction lit as [|a lit IH]; intros k.
  - intros _. now destruct (k ++ x).
  - destruct k as [|b k]; [discriminate|]. cbn [prefix append].
    destruct (ascii_dec a b); [apply IH | discriminate].
Qed.

Lemma strchr_app (k r : string) (c : ascii) :
  strchr k c = None -> strchr (k ++ String c r) c = Some (String c r).
Proof.
  induction k as [|a k IH]; simpl.
  - intros _. now rewrite Ascii.eqb_refl.
  - destruct (Ascii.eqb a c); [discriminate | exact IH].
Qed.

Lemma strcspn_app (name r : string) (c : ascii) :
  strcspn name c = length name ->
  strcspn (name ++ String c r) c = length name /\
  strcspn (name ++ "") c = length name.
Proof.
  induction name as [|a name IH]; simpl.
  - intros _. now rewrite Ascii.eqb_refl.
  - destruct (Ascii.eqb a c); [discriminate|].
    intros [= H]. destruct (IH H) as [-> ->]. split; reflexivity.
Qed.

(** X10. From a line that starts with "uarch", has its first colon
    behind the key, one character behind the colon and then a name
    without a newline, the loop body recovers the name together with the
    newline that ends the line, and the name alone when the line has no
    newline; it recovers no translation mode from such a line. *)
Theorem uarch_line_name (key name : string) (sep : ascii)
  (behind : list ascii) :
  strncmp_eq key "uarch" = true -> strchr key colon = None ->
  strcspn name newline = length name -> sep <> newline ->
  scan_line (key ++ String colon (String sep (name ++ nl))) behind
            VM_NOTSET None =
    (VM_NOTSET, Some (name ++ nl)) /\
  scan_line (key ++ String colon (String sep (name ++ ""))) behind
            VM_NOTSET None =
    (VM_NOTSET, Some (name ++ "")).
Proof.
  intros Hkey Hcolon Hname Hsep.
  assert (Hgen : forall tail,
    strcspn (name ++ tail) newline = length name -> length tail <= 1 ->
    scan_line (key ++ String colon (String sep (name ++ tail))) behind
              VM_NOTSET None =
    (VM_NOTSET, Some (name ++ tail))).
  { intros tail Hidx Htail.
    set (buf := key ++ String colon (String sep (name ++ tail))).
    assert (Hp : strchr buf colon = Some (String colon (String sep (name ++ tail))))
      by (apply strchr_app; exact Hcolon).
    assert (Hu : strncmp_eq buf "uarch" = true)
      by (apply prefix_app; exact Hkey).
    assert (Hm : strncmp_eq buf "mmu" = false).
    { pose proof (uarch_line_not_mmu buf) as H.
      unfold is_uarch_line, is_mmu_line in H. rewrite Hp in H. now apply H. }
    unfold scan_line. rewrite Hp, Hu, Hm.
    rewrite (advance_within 2 _ behind) by (simpl; lia).
    cbn [is_notset drop strcspn].
    assert (Hc : Ascii.eqb colon newline = false) by reflexivity.
    assert (Hs : Ascii.eqb sep newline = false)
      by (apply Ascii.eqb_neq; exact Hsep).
    rewrite Hc, Hs, Hidx.
    unfold store_nul, store_in_block. rewrite length_app_string.
    destruct (S (S (length name)) <=? length name + length tail)%nat eqn:E;
      [apply Nat.leb_le in E; lia | reflexivity]. }
  destruct (strcspn_app name "" newline Hname) as [H1 H2].
  split; apply Hgen; simpl; auto.
Qed.

Lemma uarch_line_name_witness :
  (strncmp_eq ("uarch" ++ tab ++ tab) "uarch" = true /\
   strchr ("uarch" ++ tab ++ tab) colon = None /\
   strcspn "sifive,u74-mc" newline = length "sifive,u74-mc" /\
   " "%char <> newline) /\
  scan_line (cpuinfo_line "uarch" "sifive,u74-mc") [] VM_NOTSET None =
    (VM_NOTSET, Some ("sifive,u74-mc" ++ nl)).
Proof.
  assert (Hsep : " "%char <> newline) by discriminate.
  split; [repeat split; exact Hsep|].
  exact (proj1 (uarch_line_name ("uarch" ++ tab ++ tab) "sifive,u74-mc" " " []
                  eq_refl eq_refl eq_refl Hsep)).
Defined.

(** ** The vendor overlay *)

#[local] Arguments rivos_features : simpl never.

Section Overlay.

Context {Flags : Type}.
Variable decl : Declarations Flags.

Lemma vendor_features_fires (s : State Flags) :
  _enabled (registry s mvendorid) = true ->
  _value (registry s mvendorid) = RIVOS_MVENDORID ->
  vendor_features decl s = rivos_features decl s.
Proof.
  intros He Hv. unfold vendor_features. rewrite run_bind.
  change (fst (enabled mvendorid s)) with (_enabled (registry s mvendorid)).
  change (snd (enabled mvendorid s)) with s.
  rewrite He. cbv beta iota delta [negb]. rewrite run_bind.
  change (fst (value mvendorid s)) with (_value (registry s mvendorid)).
  change (snd (value mvendorid s)) with s.
  rewrite Hv. reflexivity.
Qed.

(** X11. The overlay is gated on the vendor id: unless [mvendorid] is
    enabled and its value is [RIVOS_MVENDORID], [vendor_features] leaves
    the whole state as it is. *)
Theorem vendor_overlay_gate (s : State Flags) :
  _enabled (registry s mvendorid) = false \/
  _value (registry s mvendorid) <> RIVOS_MVENDORID ->
  vendor_features decl s = (tt, s).
Proof.
  intros H. unfold vendor_features. rewrite run_bind.
  change (fst (enabled mvendorid s)) with (_enabled (registry s mvendorid)).
  change (snd (enabled mvendorid s)) with s.
  destruct (_enabled (registry s mvendorid)) eqn:He;
    cbv beta iota delta [negb]; [|reflexivity].
  destruct H as [H|H]; [discriminate|].
  rewrite run_bind.
  change (fst (value mvendorid s)) with (_value (registry s mvendorid)).
  change (snd (value mvendorid s)) with s.
  apply Z.eqb_neq in H. rewrite H. reflexivity.
Qed.

Lemma enable_feature_registry (g : feature) (v : Z) (s : State Flags)
  (f : feature) :
  registry (exec (enable_feature g v) s) f =
  if feature_eqb f g then mkValue true v else registry s f.
Proof.
  unfold exec, enable_feature, upd, feature_eqb. simpl.
  now destruct (feature_eq_dec f g).
Qed.

Lemma rivos_features_registry (s : State Flags) (f : feature) :
  registry (exec (rivos_features decl) s) f =
  if existsb (feature_eqb f) rivos_bundle
  then mkValue true (rivos_value decl f)
  else registry s f.
Proof.
  unfold rivos_features.
  repeat (rewrite exec_bind; cbv beta).
  rewrite !enable_feature_registry.
  destruct f; reflexivity.
Qed.

Lemma vendor_features_registry (s : State Flags) (f : feature) :
  _enabled (registry s mvendorid) = true ->
  _value (registry s mvendorid) = RIVOS_MVENDORID ->
  registry (exec (vendor_features decl) s) f =
  if existsb (feature_eqb f) rivos_bundle
  then mkValue true (rivos_value decl f)
  else registry s f.
Proof.
  intros He Hv.
  assert (Hx : exec (vendor_features decl) s = exec (rivos_features decl) s)
    by (unfold exec; f_equal; exact (vendor_features_fires s He Hv)).
  rewrite Hx. apply rivos_features_registry.
Qed.

(** X12. When the vendor id is [RIVOS_MVENDORID], the overlay leaves
    every feature of the bundle enabled, with the default value, or with
    [MISALIGNED_FAST] for [unaligned_access] and [VM_SV48] for
    [satp_mode], whatever they held before; the vendor, architecture and
    implementation ids keep their state, and nothing but the registry
    changes. *)
Theorem rivos_overlay_effect (s : State Flags) :
  _enabled (registry s mvendorid) = true ->
  _value (registry s mvendorid) = RIVOS_MVENDORID ->
  let s' := exec (vendor_features decl) s in
  (forall f, registry s' f =
             if existsb (feature_eqb f) rivos_bundle
             then mkValue true (rivos_value decl f)
             else registry s f) /\
  registry s' mvendorid = registry s mvendorid /\
  registry s' marchid = registry s marchid /\
  registry s' mimpid = registry s mimpid /\
  _features s' = _features s /\ flags s' = flags s /\
  _features_string s' = _features_string s /\ syscalls s' = syscalls s.
Proof.
  intros He Hv. simpl.
  assert (Hreg : forall f,
    registry (exec (vendor_features decl) s) f =
    if existsb (feature_eqb f) rivos_bundle
    then mkValue true (rivos_value decl f)
    else registry s f).
  { intros f. now apply vendor_features_registry. }
  destruct (vendor_features_frame decl s) as (H1 & H2 & H3 & H4).
  repeat split; try assumption; try apply Hreg.
Qed.

End Overlay.

Lemma vendor_overlay_gate_witness :
  let s := state_with (upd (registry initial_state) mvendorid (mkValue true 0x489)) in
  (_enabled (registry s mvendorid) = false \/
   _value (registry s mvendorid) <> RIVOS_MVENDORID) /\
  vendor_features jdk_declarations s = (tt, s).
Proof.
  assert (H : _enabled (registry
                 (state_with (upd (registry initial_state) mvendorid
                                  (mkValue true 0x489))) mvendorid) = false \/
              _value (registry
                 (state_with (upd (registry initial_state) mvendorid
                                  (mkValue true 0x489))) mvendorid)
              <> RIVOS_MVENDORID)
    by (right; discriminate).
  split; [exact H|].
  exact (vendor_overlay_gate jdk_declarations _ H).
Defined.

Lemma rivos_overlay_effect_witness :
  let s := state_with (upd (upd (registry initial_state) mvendorid
                                (mkValue true RIVOS_MVENDORID))
                           satp_mode (mkValue true 39)) in
  let s' := exec (vendor_features jdk_declarations) s in
  (_enabled (registry s mvendorid) = true /\
   _value (registry s mvendorid) = RIVOS_MVENDORID) /\
  registry s' satp_mode = mkValue true 48 /\
  registry s' ext_V = mkValue true 0 /\
  registry s' mvendorid = registry s mvendorid.
Proof.
  split; [split; reflexivity|].
  destruct (rivos_overlay_effect jdk_declarations
              (state_with (upd (upd (registry initial_state) mvendorid
                                    (mkValue true RIVOS_MVENDORID))
                               satp_mode (mkValue true 39)))
              eq_refl eq_refl) as (Hreg & Hv & _).
  split; [apply (Hreg satp_mode) | split; [apply (Hreg ext_V) | exact Hv]].
Defined.

(** ** How the steps of the pass compose *)

Section Steps.

Context {Flags : Type}.
Variable decl : Declarations Flags.

Lemma os_uarch_only_satp_mode (os : Platform) (s : State Flags) (f : feature) :
  f <> satp_mode ->
  registry (exec (os_uarch_additional_features decl os) s) f = registry s f.
Proof.
  intros Hf. destruct (proc_cpuinfo os) as [lines|] eqn:H.
  - destruct (os_uarch_open decl os lines s H) as [_ ->].
    now apply upd_other.
  - unfold exec. now rewrite (os_uarch_closed decl os s H).
Qed.

Lemma os_uarch_only_enables (os : Platform) :
  only_enables (os_uarch_additional_features decl os).
Proof.
  intros s g. destruct (feature_eq_dec g satp_mode) as [->|Hg].
  - destruct (proc_cpuinfo os) as [lines|] eqn:H.
    + left. destruct (os_uarch_open decl os lines s H) as [_ ->].
      now rewrite upd_same.
    + right. unfold exec. now rewrite (os_uarch_closed decl os s H).
  - right. now apply os_uarch_only_satp_mode.
Qed.

(** X13. When the sources of the extensions leave the vendor id
    [RIVOS_MVENDORID], the pass ends with the translation mode [VM_SV48]
    and with [MISALIGNED_FAST], whatever the pseudo-file says and whether
    or not it can be opened, and with every feature of the bundle
    enabled. *)
Theorem rivos_overrides_pseudo_file (os : Platform) (s : State Flags) :
  registry (exec (isa_sources decl os) s) mvendorid =
    mkValue true RIVOS_MVENDORID ->
  let s' := exec (setup_cpu_available_features decl os) s in
  satp_mode_is decl s' VM_SV48 /\
  registry s' unaligned_access = mkValue true (MISALIGNED_FAST decl) /\
  (forall f, In f rivos_bundle -> _enabled (registry s' f) = true).
Proof.
  intros Hv. cbv zeta. destruct (setup_run decl os s) as [Hreg _].
  cbv zeta in Hreg.
  set (s2 := exec (os_uarch_additional_features decl os)
                  (exec (isa_sources decl os) s)) in *.
  assert (H2 : registry s2 mvendorid = mkValue true RIVOS_MVENDORID).
  { unfold s2. rewrite os_uarch_only_satp_mode by discriminate. exact Hv. }
  assert (Hall : forall f,
    registry (exec (vendor_features decl) s2) f =
    if existsb (feature_eqb f) rivos_bundle
    then mkValue true (rivos_value decl f)
    else registry s2 f).
  { intros f. apply vendor_features_registry; now rewrite H2. }
  unfold satp_mode_is. rewrite Hreg. split; [|split].
  - rewrite (Hall satp_mode). split; reflexivity.
  - apply (Hall unaligned_access).
  - intros f Hf. rewrite (Hall f).
    apply existsb_feature in Hf. now rewrite Hf.
Qed.

(** X14. [os_aux_features] is monotone in the bitmask: a feature that a
    bitmask enables is enabled by every bitmask that contains it. *)
Theorem os_aux_features_monotone (os1 os2 : Platform) (s : State Flags)
  (f : feature) :
  Z.land (AT_HWCAP os1) (AT_HWCAP os2) = AT_HWCAP os1 ->
  _enabled (registry (exec (os_aux_features decl os1) s) f) = true ->
  _enabled (registry (exec (os_aux_features decl os2) s) f) = true.
Proof.
  intros Hsub. rewrite !os_aux_features_registry.
  destruct (existsb (feature_eqb f) (_feature_list decl)); simpl; [|auto].
  destruct (Z.land (feature_bit decl f) (AT_HWCAP os1) =? 0)%Z eqn:H1; simpl.
  - destruct (Z.land (feature_bit decl f) (AT_HWCAP os2) =? 0)%Z; simpl; auto.
  - intros _.
    destruct (Z.land (feature_bit decl f) (AT_HWCAP os2) =? 0)%Z eqn:H2;
      [|reflexivity].
    apply Z.eqb_eq in H2. apply Z.eqb_neq in H1. exfalso. apply H1.
    rewrite <- Hsub, Z.land_assoc.
    rewrite (Z.land_comm (feature_bit decl f) (AT_HWCAP os1)).
    rewrite <- Z.land_assoc, H2. apply Z.land_0_r.
Qed.

(** X15. Once the sources of the extensions have run, no later step of
    the pass disables a feature; and when the hardware probe fails, a
    feature that was enabled on entry is enabled at the end. *)
Theorem pass_never_disables (os : Platform) (s : State Flags) (f : feature) :
  let s' := exec (setup_cpu_available_features decl os) s in
  (_enabled (registry (exec (isa_sources decl os) s) f) = true ->
   _enabled (registry s' f) = true) /\
  (hwprobe os = None -> _enabled (registry s f) = true ->
   _enabled (registry s' f) = true).
Proof.
  destruct (setup_run decl os s) as [Hreg _]. simpl in *.
  assert (Hlate : _enabled (registry (exec (isa_sources decl os) s) f) = true ->
                  _enabled (registry (exec (setup_cpu_available_features decl os) s) f)
                  = true).
  { intros H1. rewrite Hreg.
    set (s1 := exec (isa_sources decl os) s) in *.
    destruct (vendor_features_only_enables decl
                (exec (os_uarch_additional_features decl os) s1) f) as [H|H];
      [exact H|].
    rewrite H.
    destruct (os_uarch_only_enables os s1 f) as [H'|H']; [exact H'|].
    now rewrite H'. }
  split; [exact Hlate|].
  intros Hp Hf. apply Hlate.
  destruct (isa_sources_fallback decl os s Hp) as [Haux _].
  rewrite Haux, os_aux_features_registry.
  destruct (existsb (feature_eqb f) (_feature_list decl) &&
            negb (Z.land (feature_bit decl f) (AT_HWCAP os) =? 0)%Z);
    [reflexivity | exact Hf].
Qed.

(** X16. When the hardware probe succeeds, the capability bitmask has
    no bearing on the pass: two platforms that differ only in
    [AT_HWCAP] end in the same state. *)
Theorem probe_supersedes_bitmask (populate : Registry -> Registry)
  (hwcap1 hwcap2 : Z) (file : option (list string)) (stack : list ascii)
  (s : State Flags) :
  setup_cpu_available_features decl
    (mkPlatform (Some populate) hwcap1 file stack) s =
  setup_cpu_available_features decl
    (mkPlatform (Some populate) hwcap2 file stack) s.
Proof.
  unfold setup_cpu_available_features.
  rewrite !(run_bind (probe_features _)).
  unfold probe_features. cbn [hwprobe fst snd negb].
  rewrite !(run_bind (pure tt)). cbn [fst snd pure].
  rewrite !(run_bind (os_uarch_additional_features _ _)).
  assert (Hu : forall st,
    os_uarch_additional_features decl
      (mkPlatform (Some populate) hwcap1 file stack) st =
    os_uarch_additional_features decl
      (mkPlatform (Some populate) hwcap2 file stack) st)
    by reflexivity.
  rewrite Hu. reflexivity.
Qed.

(** X17. Under the assertions that open the pass, the nine
    single-letter extensions sit at the bit of their letter, counted from
    'A', below bit 26, and [os_aux_features] enables such a feature of
    [_feature_list], disabled before, exactly when that bit of the
    bitmask is set. *)
Theorem hwcap_letter_bits (os : Platform) (s : State Flags) (f : feature)
  (c : ascii) :
  bits_follow_hwcap decl -> hwcap_letter f = Some c ->
  let n := (Z.of_nat (nat_of_ascii c) - Z.of_nat (nat_of_ascii "A"))%Z in
  (0 <= n < 26)%Z /\
  feature_bit decl f = (2 ^ n)%Z /\
  (In f (_feature_list decl) -> _enabled (registry s f) = false ->
   _enabled (registry (exec (os_aux_features decl os) s) f) =
   Z.testbit (AT_HWCAP os) n).
Proof.
  intros (HI & HM & HA & HF & HD & HC & HQ & HH & HV) Hc. simpl.
  assert (Hn : (0 <= Z.of_nat (nat_of_ascii c) - Z.of_nat (nat_of_ascii "A") < 26)%Z
               /\ feature_bit decl f =
                  nth_bit (Z.of_nat (nat_of_ascii c) - Z.of_nat (nat_of_ascii "A"))).
  { destruct f; try discriminate Hc; cbv [hwcap_letter] in Hc;
      injection Hc as <-;
      (split; [vm_compute; split; [discriminate | reflexivity] | assumption]). }
  destruct Hn as [Hrange Hbit]. split; [exact Hrange|]. split.
  - rewrite Hbit. unfold nth_bit.
    destruct (64 <=? _)%Z eqn:E; [apply Z.leb_le in E; lia|].
    apply Z.shiftl_1_l.
  - intros Hin Hoff.
    rewrite os_aux_features_registry, Hbit, nth_bit_land by lia.
    apply existsb_feature in Hin. rewrite Hin, negb_involutive. simpl.
    destruct (Z.testbit (AT_HWCAP os) _); [reflexivity | exact Hoff].
Qed.

End Steps.

Lemma rivos_overrides_pseudo_file_witness :
  let probed r := upd r mvendorid (mkValue true RIVOS_MVENDORID) in
  let os := mkPlatform (Some probed) 0 (Some [cpuinfo_line "mmu" "sv39"]) [] in
  let s' := exec (setup_cpu_available_features jdk_declarations os) initial_state in
  registry (exec (isa_sources jdk_declarations os) initial_state) mvendorid =
    mkValue true RIVOS_MVENDORID /\
  satp_mode_is jdk_declarations s' VM_SV48.
Proof.
  split; [reflexivity|].
  exact (proj1 (rivos_overrides_pseudo_file jdk_declarations
                  (mkPlatform (Some (fun r => upd r mvendorid
                                                 (mkValue true RIVOS_MVENDORID)))
                              0 (Some [cpuinfo_line "mmu" "sv39"]) [])
                  initial_state eq_refl)).
Defined.

Lemma os_aux_features_monotone_witness :
  let os1 := mkPlatform None HWCAP_ISA_I None [] in
  let os2 := mkPlatform None (Z.lor HWCAP_ISA_I HWCAP_ISA_M) None [] in
  Z.land (AT_HWCAP os1) (AT_HWCAP os2) = AT_HWCAP os1 /\
  _enabled (registry (exec (os_aux_features jdk_declarations os1) initial_state)
                     ext_I) = true /\
  _enabled (registry (exec (os_aux_features jdk_declarations os2) initial_state)
                     ext_I) = true.
Proof.
  split; [reflexivity|]. split; [reflexivity|].
  exact (os_aux_features_monotone jdk_declarations
           (mkPlatform None HWCAP_ISA_I None [])
           (mkPlatform None (Z.lor HWCAP_ISA_I HWCAP_ISA_M) None [])
           initial_state ext_I eq_refl eq_refl).
Defined.

Lemma pass_never_disables_witness :
  let os := mkPlatform None HWCAP_ISA_C (Some [cpuinfo_line "mmu" "sv39"]) [] in
  let s := state_with (upd (registry initial_state) ext_Zba (mkValue true 0)) in
  let s' := exec (setup_cpu_available_features jdk_declarations os) s in
  (_enabled (registry (exec (isa_sources jdk_declarations os) s) ext_C) = true /\
   hwprobe os = None /\ _enabled (registry s ext_Zba) = true) /\
  _enabled (registry s' ext_C) = true /\
  _enabled (registry s' ext_Zba) = true.
Proof.
  split; [repeat split|].
  destruct (pass_never_disables jdk_declarations
              (mkPlatform None HWCAP_ISA_C (Some [cpuinfo_line "mmu" "sv39"]) [])
              (state_with (upd (registry initial_state) ext_Zba (mkValue true 0)))
              ext_C) as [H1 _].
  destruct (pass_never_disables jdk_declarations
              (mkPlatform None HWCAP_ISA_C (Some [cpuinfo_line "mmu" "sv39"]) [])
              (state_with (upd (registry initial_state) ext_Zba (mkValue true 0)))
              ext_Zba) as [_ H2].
  split; [exact (H1 eq_refl) | exact (H2 eq_refl eq_refl)].
Defined.

Lemma hwcap_letter_bits_witness :
  let os := mkPlatform None (2 ^ 21) None [] in
  (bits_follow_hwcap jdk_declarations /\ hwcap_letter ext_V = Some "V"%char) /\
  feature_bit jdk_declarations ext_V = (2 ^ 21)%Z /\
  _enabled (registry (exec (os_aux_features jdk_declarations os) initial_state)
                     ext_V) = true.
Proof.
  assert (Hb : bits_follow_hwcap jdk_declarations) by (repeat split).
  split; [split; [exact Hb | reflexivity]|].
  destruct (hwcap_letter_bits jdk_declarations (mkPlatform None (2 ^ 21) None [])
              initial_state ext_V "V" Hb eq_refl) as (_ & Hbit & Hen).
  split; [exact Hbit|].
  rewrite Hen; [reflexivity | simpl; tauto | reflexivity].
Defined.

End VMVersionExtra.

(** * Further properties of the C2 code stubs *)

Module CodeStubsExtra.
Import CodeStubs CodeStubsFacts.

Local Open Scope list_scope.
Local Open Scope Z_scope.

Lemma aligned_add (a b : Z) : a mod 4 = 0 -> b mod 4 = 0 -> (a + b) mod 4 = 0.
Proof. intros Ha Hb. rewrite Z.add_mod by lia. now rewrite Ha, Hb. Qed.

Lemma padding_of_aligned (p : Z) : p mod 4 = 0 -> padding 4 p = 0%nat.
Proof.
  intros H. unfold padding. rewrite Z.mod_opp_l_z by (lia || exact H).
  reflexivity.
Qed.

Lemma rv64_words : WordSized rv64.
Proof.
  constructor; simpl; intros; try reflexivity.
  - unfold rv_la_patchable.
    destruct ((- 2 ^ 31 <=? dest - p) && (dest - p <? 2 ^ 31)); reflexivity.
  - unfold rv_far_jump, rv_la_patchable.
    destruct ((- 2 ^ 20 <=? target dest - p) && (target dest - p <? 2 ^ 20));
      [reflexivity|].
    destruct ((- 2 ^ 31 <=? target dest - p) && (target dest - p <? 2 ^ 31));
      reflexivity.
  - destruct dest; reflexivity.
Qed.

(** X18. The safepoint-poll stub names the safepoint by the start of the
    section plus [_safepoint_offset], whatever the section already holds,
    and hands the far jump the handler as a runtime address. [entry()]
    and the internal-word relocation record sit at the first byte of the
    stub; behind that record come those that the far jump adds for the
    handler, and no other. From its first byte to the end of the section
    the stub is the address pair (the add-immediate taking the offset
    that the first instruction hands back), the store and the far
    jump. *)
Theorem poll_stub_names_safepoint (enc : Encoder) (rt : Runtime)
  (_safepoint_offset : Z) (m : C2_MacroAssembler) :
  let m' := run (C2SafepointPollStub_emit enc rt _safepoint_offset) m in
  let la := la_patchable_code enc t0 (sect_start m + _safepoint_offset)
                              (pc_of m) in
  let c1 := fst la in
  let c2 := addi_code enc t0 t0 (snd la) in
  let c3 := sd_code enc t0 xthread (saved_exception_pc_offset rt) in
  let fj := far_jump_code enc (RuntimeAddress (polling_page_return_handler rt))
              (pc_of m + Z.of_nat (List.length (c1 ++ c2 ++ c3))) in
  labels m' entry = Some (pc_of m) /\
  relocs m' = relocs m ++ (pc_of m, internal_word_type) :: snd fj /\
  bytes_at m' (pc_of m) = c1 ++ c2 ++ c3 ++ fst fj.
Proof.
  pose proof (poll_stub_layout enc rt _safepoint_offset m) as H.
  cbv zeta in H. destruct H as (Hs & Hi & Hr & Hl). cbv zeta.
  replace (pc_of m - offset_of m + _safepoint_offset)
    with (sect_start m + _safepoint_offset) in Hi, Hr by (unfold pc_of; lia).
  rewrite !length_app, Nat.add_assoc.
  split; [exact Hl|]. split; [exact Hr|].
  unfold bytes_at. rewrite Hs, Hi.
  replace (Z.to_nat (pc_of m - sect_start m)) with (List.length (insts m))
    by (unfold pc_of, offset_of; lia).
  rewrite skipn_app, skipn_all, Nat.sub_diag. reflexivity.
Qed.

(** X19. The entry-barrier stub is the call sequence, fewer than four
    pad bytes and the guard word, in this order and nothing else: its
    size is the sum of the three, the guard is the last word of the
    section, and the section ends on a multiple of 4. *)
Theorem entry_barrier_shape (enc : Encoder) (rt : Runtime)
  (m : C2_MacroAssembler) :
  let m' := run (C2EntryBarrierStub_emit enc rt) m in
  let body := barrier_call enc rt m in
  exists pad : nat,
    (pad < 4)%nat /\
    insts m' = insts m ++ body ++ repeat (pad_byte enc) pad ++ int32_bytes 0 /\
    emitted m m' = Z.of_nat (List.length body) + Z.of_nat pad + 4 /\
    labels m' entry = Some (pc_of m) /\
    labels m' guard = Some (pc_of m' - 4) /\
    pc_of m' mod 4 = 0.
Proof.
  pose proof (entry_barrier_layout enc rt m) as H. cbv zeta in H.
  destruct H as (Hs & Hi & _ & Hg & He & _). cbv zeta.
  set (body := barrier_call enc rt m) in *.
  set (pad := padding 4 (pc_of m + Z.of_nat (List.length body))) in *.
  pose proof (padding_bound 4 (pc_of m + Z.of_nat (List.length body)) eq_refl)
    as Hb.
  pose proof (padding_aligns 4 (pc_of m + Z.of_nat (List.length body)) eq_refl)
    as Ha.
  fold pad in Hb, Ha.
  assert (Hpc : pc_of (run (C2EntryBarrierStub_emit enc rt) m) =
                pc_of m + Z.of_nat (List.length body) + Z.of_nat pad + 4).
  { unfold pc_of, offset_of. rewrite Hs, Hi, !length_app, repeat_length.
    simpl List.length. lia. }
  exists pad. split; [lia|]. split; [exact Hi|]. split; [|split; [|split]].
  - unfold emitted, offset_of. rewrite Hi, !length_app, repeat_length.
    simpl List.length. lia.
  - exact He.
  - rewrite Hg, Hpc. f_equal. lia.
  - rewrite Hpc. now apply aligned_add.
Qed.

(** X20. With an encoder without compressed instructions and a section
    that stands on a multiple of 4, the entry-barrier stub pads nothing:
    the guard word follows the call sequence at once, and with every
    primitive within its budget the stub stays within the [8 * 4] of
    [max_size()], the 4 bytes for alignment unused. *)
Theorem aligned_start_needs_no_padding (enc : Encoder) (rt : Runtime)
  (m : C2_MacroAssembler) :
  WordSized enc -> SizeContract enc -> pc_of m mod 4 = 0 ->
  let m' := run (C2EntryBarrierStub_emit enc rt) m in
  insts m' = insts m ++ barrier_call enc rt m ++ int32_bytes 0 /\
  labels m' guard =
    Some (pc_of m + Z.of_nat (List.length (barrier_call enc rt m))) /\
  emitted m m' <= 8 * 4.
Proof.
  intros Hw Hc Hpc. cbv zeta.
  pose proof (entry_barrier_layout enc rt m) as H. cbv zeta in H.
  destruct H as (_ & Hi & _ & Hg & _).
  assert (Hbody : Z.of_nat (List.length (barrier_call enc rt m)) mod 4 = 0).
  { unfold barrier_call. cbv zeta. rewrite !length_app, !Nat2Z.inj_add.
    destruct Hw as [_ _ _ _ Hmov Hjalr Hj].
    apply aligned_add; [apply Hmov|]. apply aligned_add; [apply Hjalr|apply Hj]. }
  rewrite (padding_of_aligned _ (aligned_add _ _ Hpc Hbody)) in Hi, Hg.
  simpl repeat in Hi. simpl app in Hi. rewrite Z.add_0_r in Hg.
  split; [exact Hi|]. split; [exact Hg|].
  unfold emitted, offset_of. rewrite Hi, !length_app.
  unfold barrier_call. cbv zeta. rewrite !length_app.
  destruct Hc as [_ _ _ _ Hmov Hjalr Hj].
  pose proof (Hmov t0 (method_entry_barrier rt)).
  match goal with
  | |- context [jalr_code enc ?a ?b ?c] => pose proof (Hjalr a b c)
  end.
  match goal with
  | |- context [j_code enc ?a ?b] => pose proof (Hj a b)
  end.
  simpl List.length. lia.
Qed.

Lemma aligned_start_needs_no_padding_witness :
  let m := section_at 0x7f0000500000 8 in
  let m' := run (C2EntryBarrierStub_emit rv64 a_runtime) m in
  (WordSized rv64 /\ SizeContract rv64 /\ pc_of m mod 4 = 0) /\
  labels m' guard = Some 0x7f0000500024 /\
  emitted m m' <= 8 * 4.
Proof.
  split; [split; [exact rv64_words | split; [exact rv64_sizes | reflexivity]]|].
  destruct (aligned_start_needs_no_padding rv64 a_runtime
              (section_at 0x7f0000500000 8) rv64_words rv64_sizes eq_refl)
    as (_ & Hg & He).
  split; [exact Hg | exact He].
Defined.

End CodeStubsExtra.
